(** * The agent core of cursor-agent: tool registry, dispatch pipeline,
      conversation history, permission prompt and host override

    A shallow embedding of [agent/base.py] (class [BaseAgent]) and
    [agent/ollama_agent.py] (class [OllamaAgent]).

    Conventions of the embedding.
    - A Python [str] is a [string]; every character stands for the code
      point with the same number (0..255).
    - A Python [dict] with [str] keys is an association list kept in
      insertion order with pairwise distinct keys, as CPython keeps it.
    - A method that mutates [self] takes the object and returns the new one.
    - A call that can raise returns a sum: [inl] carries the exception.
    - Effects on the outside world (what a tool does, what the model server
      answers) are threaded through an abstract [World].
    - Calls to [logger] have no effect on any value the program computes
      and are left out. *)

From Stdlib Require Import ZArith Ascii String.
From stdpp Require Import base option list strings pretty gmap.

(** ** Python values that travel through the agent ([Any] in the source):
    the JSON fragment of Python, without floats. *)
#[local] Set Warnings "-register-all".
Inductive value : Type :=
| VNone
| VBool (b : bool)
| VInt (z : Z)
| VStr (s : string)
| VList (l : list value)
| VDict (d : list (string * value)).

(** ** Python dictionaries with string keys *)
Module PyDict.

Abbreviation t V := (list (string * V)).

(** [k in d] *)
Fixpoint contains {V} (d : t V) (k : string) : bool :=
  match d with
  | [] => false
  | (k', _) :: d' => if String.eqb k k' then true else contains d' k
  end.

(** [d.get(k)], [None] when the key is absent *)
Fixpoint get {V} (d : t V) (k : string) : option V :=
  match d with
  | [] => None
  | (k', v) :: d' => if String.eqb k k' then Some v else get d' k
  end.

(** [d.get(k, default)] *)
Definition get_default {V} (d : t V) (k : string) (default : V) : V :=
  match get d k with Some v => v | None => default end.

(** [d[k] = v]: an existing key keeps its position, a new key goes last *)
Fixpoint set {V} (d : t V) (k : string) (v : V) : t V :=
  match d with
  | [] => [(k, v)]
  | (k', v') :: d' =>
      if String.eqb k k' then (k, v) :: d' else (k', v') :: set d' k v
  end.

(** [d.keys()] *)
Definition keys {V} (d : t V) : list string := map fst d.

(** the number of entries stored under [k] *)
Definition count {V} (d : t V) (k : string) : nat :=
  length (filter (λ kv, kv.1 = k) d).

(** what CPython guarantees of every dictionary *)
Definition wf {V} (d : t V) : Prop := NoDup (keys d).

End PyDict.

(** ** Tool schemas and results *)
Module ToolSchema.
(** [{"name": name, "description": description, "parameters": parameters}] *)
Record t : Type := mk {
  name : string;
  description : string;
  parameters : PyDict.t value
}.
End ToolSchema.

Module ToolCallResult.
(** [class ToolCallResult(TypedDict)]; the fields hold whatever the
    pipeline stores in them, hence [value]. *)
Record t : Type := mk {
  name : value;
  parameters : value;
  output : value;
  error : value
}.
End ToolCallResult.

(** What a call can do: return a value or raise an [Exception] [e];
    [Raises msg] has [str(e) = msg]. The interpreter's exit signals
    ([KeyboardInterrupt], [SystemExit]) are no [Exception] and are not
    modelled. *)
Inductive outcome : Type :=
| Returns (v : value)
| Raises (msg : string).

(** The exceptions the agent itself raises or lets through. *)
Inductive exn : Type :=
| KeyError (key : string)
| ImportError (msg : string)
| ConnectionError (msg : string)
| EOFError.

Section Registry.

Context {World : Type}.

(** A registered callable [f], seen through the one way the agent uses
    it: [f( **parameters )] on the raw [parameters] of a call. A
    [TypeError] of the keyword expansion or of the argument binding is an
    exception of that call like any other. *)
Definition callable : Type := value → World → outcome * World.

(** [{"function": function, "schema": {...}}] *)
Record RegisteredTool : Type := {
  function : callable;
  schema : ToolSchema.t
}.

(** [BaseAgent.register_tool], on the [available_tools] attribute *)
Definition register_tool (available_tools : PyDict.t RegisteredTool)
    (name : string) (function : callable) (description : string)
    (parameters : PyDict.t value) : PyDict.t RegisteredTool :=
  PyDict.set available_tools name
    {| function := function;
       schema := ToolSchema.mk name description parameters |}.

End Registry.

Arguments callable World : clear implicits.
Arguments RegisteredTool World : clear implicits.

(** ** What the Python runtime and the model server contribute *)

(** The two errors the interpreter itself raises inside the dispatch loop. *)
Inductive runtime_error : Type :=
| Unhashable (v : value)       (* [v in d] for a list or dict [v] *)
| NoGetAttribute (v : value).  (* [v.get] for a [v] that is no dict *)

Module Message.
(** [{"role": role, "content": content}] *)
Record t : Type := mk { role : string; content : string }.
End Message.

Module Response.
(** The object [async_client.chat] returns, as [chat] reads it. *)
Record t : Type := mk {
  (** [getattr(response, "tool_calls", None)]; [None] when the attribute
      is missing or holds [None] *)
  tool_calls : option (list (PyDict.t value));
  (** [response.message]: [None] when falsy, [Some None] when it has no
      [content] attribute, else [str(response.message.content)] *)
  message : option (option string)
}.
End Response.

(** Texts the interpreter and its standard library produce. The agent only
    passes them on, so they are left open. *)
Class PythonRuntime : Type := {
  (** [str(v)] for a [v] that is not a [str] *)
  str_of_object : value → string;
  (** [str(e)] for an error of the interpreter *)
  runtime_msg : runtime_error → string;
  (** [json.dumps(v, indent=2)] *)
  json_dumps : value → string
}.

(** The model server behind [self.async_client]; the sampling options
    ([temperature], [extra_kwargs]) are fixed in the client. *)
Class Backend (World : Type) : Type := {
  (** [await self.async_client.chat(model=..., messages=..., options=...)]:
      [inl msg] when it raises an exception [e] with [str(e) = msg] *)
  async_client_chat :
    string → list Message.t → World → (string + Response.t) * World;
  (** the literal [_generate_system_prompt] returns *)
  SYSTEM_PROMPT : string
}.

(** The line feed, [chr(10)], written [\n] in the source. *)
Definition LF : string := String "010"%char EmptyString.

(** [str(v)], as an f-string applies it *)
Definition py_str `{PythonRuntime} (v : value) : string :=
  match v with
  | VStr s => s
  | _ => str_of_object v
  end.

(** ** [OllamaAgent] *)

Module AgentToolCall.
(** an entry of [agent_tool_calls] in [chat] *)
Record t : Type := mk {
  name : value;
  parameters : value;
  output : value;
  error : value;
  thinking : value
}.
End AgentToolCall.

Module AgentResponse.
(** [{"message": content, "tool_calls": agent_tool_calls, "thinking": None}] *)
Record t : Type := mk {
  message : string;
  tool_calls : list AgentToolCall.t;
  thinking : value
}.
End AgentResponse.

(** [Union[str, AgentResponse]] *)
Inductive chat_result : Type :=
| Text (s : string)
| Structured (r : AgentResponse.t).

Section Agent.

Context {World : Type} `{PythonRuntime} `{Backend World}.

(** The attributes of an [OllamaAgent] that the methods below read or
    write. *)
Record OllamaAgent : Type := {
  model : string;
  original_host : option string;
  host : string;
  conversation_history : list Message.t;
  available_tools : PyDict.t (RegisteredTool World);
  system_prompt : string
}.

Definition with_history (self : OllamaAgent) (h : list Message.t)
    : OllamaAgent :=
  {| model := model self;
     original_host := original_host self;
     host := host self;
     conversation_history := h;
     available_tools := available_tools self;
     system_prompt := system_prompt self |}.

Definition with_tools (self : OllamaAgent)
    (t : PyDict.t (RegisteredTool World)) : OllamaAgent :=
  {| model := model self;
     original_host := original_host self;
     host := host self;
     conversation_history := conversation_history self;
     available_tools := t;
     system_prompt := system_prompt self |}.

(** *** [_prepare_tools] *)

(** the dictionary built for one registry item; [KeyError] when
    [tool_data["schema"]["parameters"]["properties"]] has no such key *)
Definition prepare_tool (name : string) (tool_data : RegisteredTool World)
    : exn + value :=
  let parameters := ToolSchema.parameters (schema tool_data) in
  match PyDict.get parameters "properties" with
  | None => inl (KeyError "properties")
  | Some properties =>
      inr (VDict
        [ ("name", VStr name);
          ("description", VStr (ToolSchema.description (schema tool_data)));
          ("parameters", VDict
             [ ("type", VStr "object");
               ("properties", properties);
               ("required",
                 PyDict.get_default parameters "required" (VList [])) ]) ])
  end.

(** [for name, tool_data in self.available_tools.items(): tools.append(...)] *)
Fixpoint prepare_loop (items : PyDict.t (RegisteredTool World))
    (tools : list value) : exn + list value :=
  match items with
  | [] => inr tools
  | (name, tool_data) :: items' =>
      match prepare_tool name tool_data with
      | inl e => inl e
      | inr tool => prepare_loop items' (tools ++ [tool])
      end
  end.

Definition _prepare_tools (self : OllamaAgent) : exn + list value :=
  match available_tools self with
  | [] => inr []
  | items => prepare_loop items []
  end.

(** *** [_execute_tool_calls] *)

(** the body of the [try] for one call: [inl msg] when it raises an
    exception [e] with [str(e) = msg] *)
Definition try_call (self : OllamaAgent) (call : PyDict.t value) (w : World)
    : (string + ToolCallResult.t) * World :=
  let tool_name := PyDict.get_default call "name" (VStr "") in
  let parameters := PyDict.get_default call "parameters" (VDict []) in
  let not_found :=
    ToolCallResult.mk tool_name parameters (VStr "")
      (VStr ("Tool '" +:+ py_str tool_name +:+ "' not found")) in
  match tool_name with
  | VStr s =>
      match PyDict.get (available_tools self) s with
      | Some tool =>
          match function tool parameters w with
          | (Returns (VDict result), w') =>
              (inr (ToolCallResult.mk tool_name parameters
                      (PyDict.get_default result "output" (VStr ""))
                      (PyDict.get_default result "error" VNone)), w')
          | (Returns v, w') => (inl (runtime_msg (NoGetAttribute v)), w')
          | (Raises msg, w') => (inl msg, w')
          end
      | None => (inr not_found, w)
      end
  | VList _ | VDict _ => (inl (runtime_msg (Unhashable tool_name)), w)
  | VNone | VBool _ | VInt _ => (inr not_found, w)
  end.

(** one round of the loop: the [try], and the [except Exception] around it *)
Definition execute_call (self : OllamaAgent) (call : PyDict.t value)
    (w : World) : ToolCallResult.t * World :=
  match try_call self call w with
  | (inr result, w') => (result, w')
  | (inl msg, w') =>
      (ToolCallResult.mk
         (PyDict.get_default call "name" (VStr "unknown"))
         (PyDict.get_default call "parameters" (VDict []))
         (VStr "")
         (VStr ("Error executing tool: " +:+ msg)), w')
  end.

(** [for call in tool_calls: ... tool_results.append(...)] *)
Fixpoint execute_loop (self : OllamaAgent) (tool_calls : list (PyDict.t value))
    (tool_results : list ToolCallResult.t) (w : World)
    : list ToolCallResult.t * World :=
  match tool_calls with
  | [] => (tool_results, w)
  | call :: tool_calls' =>
      let '(result, w') := execute_call self call w in
      execute_loop self tool_calls' (tool_results ++ [result]) w'
  end.

Definition _execute_tool_calls (self : OllamaAgent)
    (tool_calls : list (PyDict.t value)) (w : World)
    : list ToolCallResult.t * World :=
  execute_loop self tool_calls [] w.

(** *** [_prepare_messages] *)

(** [for msg in self.conversation_history: messages.append(msg)] *)
Fixpoint extend_messages (messages history : list Message.t)
    : list Message.t :=
  match history with
  | [] => messages
  | msg :: history' => extend_messages (messages ++ [msg]) history'
  end.

Definition _prepare_messages (self : OllamaAgent) (message : string)
    : list Message.t :=
  let messages := [Message.mk "system" (system_prompt self)] in
  let messages := extend_messages messages (conversation_history self) in
  messages ++ [Message.mk "user" message].

(** *** [format_user_message] *)

(** the truth value of [user_info] in [if user_info:] *)
Definition truthy (user_info : option (PyDict.t value)) : bool :=
  match user_info with
  | Some (_ :: _) => true
  | Some [] | None => false
  end.

(** an [Optional[Dict[str, Any]]] as a value *)
Definition of_optional_dict (user_info : option (PyDict.t value)) : value :=
  match user_info with
  | Some d => VDict d
  | None => VNone
  end.

Definition format_user_message (message : string)
    (user_info : option (PyDict.t value)) : string :=
  if truthy user_info then
    "<user_info>" +:+ LF +:+ json_dumps (of_optional_dict user_info) +:+ LF
      +:+ "</user_info>" +:+ LF +:+ LF
      +:+ "<user_query>" +:+ LF +:+ message +:+ LF +:+ "</user_query>"
  else
    "<user_query>" +:+ LF +:+ message +:+ LF +:+ "</user_query>".

(** *** [chat] *)

(** [bool(getattr(response, "tool_calls", None))] under
    [hasattr(response, "tool_calls")] *)
Definition has_tool_calls (response : Response.t) : bool :=
  match Response.tool_calls response with
  | Some (_ :: _) => true
  | Some [] | None => false
  end.

(** [str(response.message.content) if response.message and
    hasattr(response.message, "content") else ""] *)
Definition response_content (response : Response.t) : string :=
  match Response.message response with
  | Some (Some s) => s
  | Some None | None => ""
  end.

(** the comprehension that builds [agent_tool_calls] *)
Definition agent_tool_call (result : ToolCallResult.t) : AgentToolCall.t :=
  AgentToolCall.mk (ToolCallResult.name result)
    (ToolCallResult.parameters result) (ToolCallResult.output result)
    (ToolCallResult.error result) VNone.

(** [self.conversation_history.append(turn)] *)
Definition append_history (self : OllamaAgent) (turn : Message.t)
    : OllamaAgent :=
  with_history self (conversation_history self ++ [turn]).

(** [chat]: the value returned or the exception let through, the agent
    afterwards, the world afterwards. *)
Definition chat (self : OllamaAgent) (message : string)
    (user_info : option (PyDict.t value)) (w : World)
    : (exn + chat_result) * OllamaAgent * World :=
  let formatted_message := format_user_message message user_info in
  let messages := _prepare_messages self formatted_message in
  match _prepare_tools self with
  | inl e => (inl e, self, w)
  | inr _ =>
      if String.eqb (model self) "" then
        (inr (Text "Error: No model specified for Ollama agent"), self, w)
      else
        match async_client_chat (model self) messages w with
        | (inl msg, w') =>
            (inr (Text ("Error communicating with Ollama: " +:+ msg)),
             self, w')
        | (inr response, w') =>
            let self := append_history self
                          (Message.mk "user" formatted_message) in
            let content := response_content response in
            let self := append_history self
                          (Message.mk "assistant" content) in
            if has_tool_calls response then
              let '(tool_calls_results, w'') :=
                _execute_tool_calls self
                  (default [] (Response.tool_calls response)) w' in
              (inr (Structured
                      (AgentResponse.mk content
                         (map agent_tool_call tool_calls_results) VNone)),
               self, w'')
            else
              (inr (Text content), self, w')
        end
  end.

End Agent.

Arguments OllamaAgent World : clear implicits.

(** ** The default permission prompt, [BaseAgent._permission_request_callback] *)

(** Modelled from the spec: the module [permissions] is not part of the
    sources at hand; the enumeration [PermissionStatus] has the three
    members the specification lists. *)
Inductive PermissionStatus : Type := GRANTED | DENIED | ASK.

(** Modelled from the spec: the value [PermissionRequest] with the two
    fields the callback reads. *)
Record PermissionRequest : Type := {
  operation : string;
  details : PyDict.t value
}.

(** [str.isspace] on one character *)
Definition isspace (c : ascii) : bool :=
  let n := nat_of_ascii c in
  (Nat.leb 9 n && Nat.leb n 13) || (Nat.leb 28 n && Nat.leb n 32)
  || Nat.eqb n 133 || Nat.eqb n 160.

Fixpoint lstrip (s : string) : string :=
  match s with
  | EmptyString => EmptyString
  | String c s' => if isspace c then lstrip s' else s
  end.

Fixpoint rstrip (s : string) : string :=
  match s with
  | EmptyString => EmptyString
  | String c s' =>
      match rstrip s' with
      | EmptyString => if isspace c then EmptyString else String c EmptyString
      | r => String c r
      end
  end.

(** [s.strip()] *)
Definition strip (s : string) : string := rstrip (lstrip s).

(** [str.lower] on one character: the capital letters of the 256 code
    points are A..Z and the accented capitals 192..222 without the
    multiplication sign 215 *)
Definition lower_char (c : ascii) : ascii :=
  let n := nat_of_ascii c in
  if (Nat.leb 65 n && Nat.leb n 90)
     || (Nat.leb 192 n && Nat.leb n 222 && negb (Nat.eqb n 215))
  then ascii_of_nat (n + 32) else c.

(** [s.lower()] *)
Fixpoint lower (s : string) : string :=
  match s with
  | EmptyString => EmptyString
  | String c s' => String (lower_char c) (lower s')
  end.

(** [x in (a, b)] for strings *)
Definition in_pair (x a b : string) : bool := String.eqb x a || String.eqb x b.

(** What the callback does on the console, in order. *)
Inductive console_event : Type :=
| Print (text : string)       (* [print(text)] *)
| Input (prompt : string).    (* [input(prompt)] *)

(** The padlock sign of the banner, U+1F512; it lies beyond the 256 code
    points of a character and is written here by its four UTF-8 bytes. *)
Definition PADLOCK : string :=
  String "240"%char (String "159"%char (String "148"%char
    (String "146"%char EmptyString))).

(** [while True: response = input(...).strip().lower() ...] over the lines
    still to be read from standard input. [input] raises [EOFError] when
    there is no line left. Returns the answer, the lines not read, and the
    console events so far. *)
Fixpoint prompt_loop (stdin : list string) (console : list console_event)
    : (exn + PermissionStatus) * list string * list console_event :=
  let console := console ++ [Input "Allow this operation? (y/n): "] in
  match stdin with
  | [] => (inl EOFError, [], console)
  | line :: stdin' =>
      let response := lower (strip line) in
      if in_pair response "y" "yes" then (inr GRANTED, stdin', console)
      else if in_pair response "n" "no" then (inr DENIED, stdin', console)
      else prompt_loop stdin' (console ++ [Print "Please enter 'y' or 'n'"])
  end.

(** the two lines printed before the first prompt *)
Definition banner `{PythonRuntime} (permission_request : PermissionRequest)
    : list console_event :=
  [ Print (LF +:+ PADLOCK +:+ " Permission Request: "
             +:+ operation permission_request);
    Print ("Details: " +:+ json_dumps (VDict (details permission_request))) ].

Definition _permission_request_callback `{PythonRuntime}
    (permission_request : PermissionRequest) (stdin : list string)
    : (exn + PermissionStatus) * list string * list console_event :=
  prompt_loop stdin (banner permission_request).

(** ** The host override: [OllamaAgent.__init__] and [OllamaAgent.__del__] *)

(** [os.environ] *)
Abbreviation environ := (gmap string string).

(** [a or b] for an optional string [a] *)
Definition or_else (a : option string) (b : string) : string :=
  match a with
  | Some (String _ _ as s) => s
  | Some EmptyString | None => b
  end.

(** [s.startswith(prefix)] *)
Fixpoint startswith (s prefix : string) : bool :=
  match prefix, s with
  | EmptyString, _ => true
  | String _ _, EmptyString => false
  | String a prefix', String b s' => Ascii.eqb a b && startswith s' prefix'
  end.

(** [model[len("ollama-"):] if model.startswith("ollama-") else model] *)
Definition strip_model_prefix (model : string) : string :=
  if startswith model "ollama-"
  then String.substring 7 (String.length model - 7) model
  else model.

(** [_check_ollama_server]: [listing] is [Some msg] when the body of its
    [try] (the call [ollama.list()] and the walk over the answer) raises an
    exception [e] with [str(e) = msg]. *)
Definition _check_ollama_server (host : string) (listing : option string)
    : exn + unit :=
  match listing with
  | Some msg =>
      inl (ConnectionError
             ("Cannot connect to Ollama server at " +:+ host
                +:+ ". Is Ollama running? Error: " +:+ msg))
  | None => inr ()
  end.

(** [str(e)] for the exceptions above; a [KeyError] shows the [repr] of its
    key, which for a key without quotes or escapes is the key in single
    quotes. *)
Definition str_exn (e : exn) : string :=
  match e with
  | KeyError key => "'" +:+ key +:+ "'"
  | ImportError msg | ConnectionError msg => msg
  | EOFError => ""
  end.

Section Construction.

Context {World : Type} `{Backend World}.

(** [OllamaAgent.__init__]. [OLLAMA_AVAILABLE] is the module flag;
    [super_init] is [Some e] when [super().__init__(...)] raises [e];
    [listing] is as in [_check_ollama_server]. Returns the exception
    raised, if any; the object as far as it got ([None] while
    [original_host] is not yet assigned); and the environment. *)
Definition __init__ (OLLAMA_AVAILABLE : bool) (super_init : option exn)
    (listing : option string) (model : string) (host : option string)
    (env : environ)
    : option exn * option (OllamaAgent World) * environ :=
  if negb OLLAMA_AVAILABLE then
    (Some (ImportError
       "Ollama Python package is required. Install with 'pip install ollama'"),
     None, env)
  else
    let model := strip_model_prefix model in
    match super_init with
    | Some e => (Some e, None, env)
    | None =>
        let original_host := env !! "OLLAMA_HOST" in
        let host :=
          or_else host (or_else original_host "http://localhost:11434") in
        let env := <["OLLAMA_HOST" := host]> env in
        let self :=
          {| model := model;
             original_host := original_host;
             host := host;
             conversation_history := [];
             available_tools := [];
             system_prompt := SYSTEM_PROMPT |} in
        match _check_ollama_server host listing with
        | inl e =>
            (Some (ConnectionError
                     ("Failed to connect to Ollama server at " +:+ host
                        +:+ ": " +:+ str_exn e)),
             Some self, env)
        | inr _ => (None, Some self, env)
        end
    end.

(** [OllamaAgent.__del__]; [self] is [None] for an object without the
    attribute [original_host]. *)
Definition __del__ (self : option (OllamaAgent World)) (env : environ)
    : environ :=
  match self with
  | Some self =>
      match original_host self with
      | Some h => <["OLLAMA_HOST" := h]> env
      | None => delete "OLLAMA_HOST" env
      end
  | None => env
  end.

End Construction.

(** ** Notions the properties are stated with *)

(** [c in s] for a character [c] *)
Fixpoint has_char (c : ascii) (s : string) : bool :=
  match s with
  | EmptyString => false
  | String a s' => Ascii.eqb a c || has_char c s'
  end.

(** [needle in hay] for strings *)
Fixpoint occurs (needle hay : string) : bool :=
  startswith hay needle
  || match hay with
     | EmptyString => false
     | String _ hay' => occurs needle hay'
     end.

(** the opening tag of the [user_info] block comes first in [s], and
    strictly before the first opening tag of the [user_query] block *)
Definition info_before_query (s : string) : bool :=
  match String.index 0 "<user_info>" s, String.index 0 "<user_query>" s with
  | Some i, Some j => Nat.ltb i j
  | _, _ => false
  end.

(** a tagged block: the opening tag, the body and the closing tag, each on
    lines of their own *)
Definition tagged (tag body : string) : string :=
  "<" +:+ tag +:+ ">" +:+ LF +:+ body +:+ LF +:+ "</" +:+ tag +:+ ">".

(** a line of input counts as yes, as no, or as no answer at all *)
Definition says_yes (line : string) : bool :=
  in_pair (lower (strip line)) "y" "yes".

Definition says_no (line : string) : bool :=
  in_pair (lower (strip line)) "n" "no".

Definition valid_answer (line : string) : bool :=
  says_yes line || says_no line.

(** the console after the banner when [n] lines have been turned down *)
Definition reprompts (n : nat) : list console_event :=
  concat (replicate n [ Input "Allow this operation? (y/n): ";
                        Print "Please enter 'y' or 'n'" ]).

(** one call of [register_tool] *)
Record registration (World : Type) : Type := {
  reg_name : string;
  reg_function : callable World;
  reg_description : string;
  reg_parameters : PyDict.t value
}.
Arguments reg_name {World} _.
Arguments reg_function {World} _.
Arguments reg_description {World} _.
Arguments reg_parameters {World} _.

(** a sequence of [register_tool] calls, first to last *)
Definition register_all {World} (available_tools : PyDict.t (RegisteredTool World))
    (calls : list (registration World)) : PyDict.t (RegisteredTool World) :=
  foldl (λ tools r,
           register_tool tools (reg_name r) (reg_function r)
             (reg_description r) (reg_parameters r))
        available_tools calls.

(** the schema of a tool has the key [properties] *)
Definition has_properties {World} (item : string * RegisteredTool World) : bool :=
  PyDict.contains (ToolSchema.parameters (schema item.2)) "properties".

Section Runs.

Context {World : Type} `{PythonRuntime} `{Backend World}.

(** one call of [chat] seen from outside: [message] and [user_info] *)
Definition chat_input : Type := string * option (PyDict.t value).

(** the agent and the world after a series of [chat] calls *)
Fixpoint chats (self : OllamaAgent World) (inputs : list chat_input)
    (w : World) : OllamaAgent World * World :=
  match inputs with
  | [] => (self, w)
  | (message, user_info) :: inputs' =>
      let '(_, self', w') := chat self message user_info w in
      chats self' inputs' w'
  end.

(** the call reaches the model server, the server answers, and the
    answer asks for no tool *)
Definition plain_success (self : OllamaAgent World) (input : chat_input)
    (w : World) : bool :=
  match _prepare_tools self with
  | inl _ => false
  | inr _ =>
      negb (String.eqb (model self) "")
      && match async_client_chat (model self)
                 (_prepare_messages self
                    (format_user_message input.1 input.2)) w with
         | (inr response, _) => negb (has_tool_calls response)
         | (inl _, _) => false
         end
  end.

(** every call of the series is such a success *)
Fixpoint all_plain_success (self : OllamaAgent World)
    (inputs : list chat_input) (w : World) : bool :=
  match inputs with
  | [] => true
  | input :: inputs' =>
      plain_success self input w
      && let '(_, self', w') := chat self input.1 input.2 w in
         all_plain_success self' inputs' w'
  end.

End Runs.

(** ** The file search tool, [tools/search_tools.py] *)

(** [s.split(c)[-1]]: what follows the last [c], all of [s] without one *)
Fixpoint after_last (c : ascii) (s : string) : string :=
  match s with
  | EmptyString => EmptyString
  | String a s' =>
      if has_char c s' then after_last c s'
      else if Ascii.eqb a c then s' else s
  end.

(** [os.path.join(a, p)] of [posixpath] *)
Definition path_join (a p : string) : string :=
  if startswith p "/" then p
  else if String.eqb a "" || String.eqb (String.substring (String.length a - 1) 1 a) "/"
  then a +:+ p
  else a +:+ "/" +:+ p.

(** What the file tools see of the disk: the entries [os.walk(os.getcwd())]
    yields, each a directory with the names of its files, and
    [os.path.getsize], which raises ([inl], with the text of the error)
    for a file that has gone or may not be examined. *)
Class FileSystem : Type := {
  walk : list (string * list string);
  getsize : string → string + Z
}.

(** the dictionary [file_search] appends for one file *)
Definition file_result (root file : string) (file_size : Z) : value :=
  VDict
    [ ("path", VStr (path_join root file));
      ("name", VStr file);
      ("size", VInt file_size);
      ("type", VStr (if has_char "." file
                     then lower (after_last "." file) else "unknown")) ].

(** [query.lower() in file.lower()] *)
Definition name_matches (query file : string) : bool :=
  occurs (lower query) (lower file).

(** [for file in files: ...], left by [break] once there are 10 results *)
Fixpoint search_files `{FileSystem} (query root : string)
    (files : list string) (results : list value) : string + list value :=
  match files with
  | [] => inr results
  | file :: files' =>
      if name_matches query file then
        match getsize (path_join root file) with
        | inl msg => inl msg
        | inr file_size =>
            let results := results ++ [file_result root file file_size] in
            if Nat.leb 10 (length results) then inr results
            else search_files query root files' results
        end
      else search_files query root files' results
  end.

(** [for root, _, files in os.walk(os.getcwd()): ...], left by [break]
    once there are 10 results *)
Fixpoint search_walk `{FileSystem} (query : string)
    (entries : list (string * list string)) (results : list value)
    : string + list value :=
  match entries with
  | [] => inr results
  | (root, files) :: entries' =>
      match search_files query root files results with
      | inl msg => inl msg
      | inr results =>
          if Nat.leb 10 (length results) then inr results
          else search_walk query entries' results
      end
  end.

(** [file_search(query, explanation)]; [explanation] is not used. *)
Definition file_search `{FileSystem} (query : string) : value :=
  match search_walk query walk [] with
  | inl msg => VDict [("error", VStr msg)]
  | inr results =>
      VDict [ ("query", VStr query);
              ("results", VList results);
              ("total_matches", VInt (Z.of_nat (length results))) ]
  end.

(** [web_search(search_term, explanation)] *)
Definition web_search (search_term : string) : value :=
  VDict
    [ ("results", VList
         [ VDict
             [ ("title", VStr "Web search placeholder");
               ("snippet",
                 VStr ("This is a placeholder for web search results for: "
                         +:+ search_term));
               ("url", VStr "https://example.com") ] ]);
      ("message",
        VStr "Note: This is a placeholder. In a real implementation, you would use a search API or web scraping to get actual search results.") ].

(** ** The model listing of [OllamaAgent._check_ollama_server] *)

(** [s.split(c)[0]]: what precedes the first [c], all of [s] without one *)
Fixpoint before_first (c : ascii) (s : string) : string :=
  match s with
  | EmptyString => EmptyString
  | String a s' =>
      if Ascii.eqb a c then EmptyString else String a (before_first c s')
  end.

(** [for model_info in models.models: ...], on the [model] attribute of
    each entry ([None] when it holds [None]); returns [available_models] *)
Fixpoint collect_models (listed : list (option string))
    (available_models : list string) : list string :=
  match listed with
  | [] => available_models
  | model_info :: listed' =>
      let model_name :=
        match model_info with
        | Some (String _ _ as n) =>
            if has_char ":" n then Some (before_first ":" n) else model_info
        | _ => model_info
        end in
      match model_name with
      | Some (String _ _ as n) => collect_models listed' (available_models ++ [n])
      | _ => collect_models listed' available_models
      end
  end.

(** [x in names] for a list of strings *)
Definition in_list (x : string) (names : list string) : bool :=
  existsb (String.eqb x) names.

(** the test [self.model not in available_models] that guards the warning
    "Model ... not found in available models" *)
Definition model_not_found (model : string) (listed : list (option string))
    : bool :=
  negb (in_list model (collect_models listed [])).

(** ** [OllamaAgent.query_image] *)

(** What [query_image] needs of the outside: reading an image file, from
    [open(path, "rb")] to the base64 text ([inl] with the text of the error
    when any of that raises), and the model server asked with messages
    whose content is structured. *)
Class ImageBackend (World : Type) : Type := {
  read_image : string → World → (string + string) * World;
  async_client_chat_multimodal :
    string → list (string * value) → World → (string + Response.t) * World
}.

Section Images.

Context {World : Type} `{ImageBackend World}.

(** [for path in image_paths: ... content.append({"type": "image", ...})] *)
Fixpoint read_images (image_paths : list string) (content : list value)
    (w : World) : (string + list value) * World :=
  match image_paths with
  | [] => (inr content, w)
  | path :: image_paths' =>
      match read_image path w with
      | (inl msg, w') => (inl msg, w')
      | (inr image_data, w') =>
          read_images image_paths'
            (content ++ [VDict [("type", VStr "image");
                                ("data", VStr image_data)]]) w'
      end
  end.

(** [query_image]: the text returned and the world afterwards. *)
Definition query_image (self : OllamaAgent World) (image_paths : list string)
    (query : string) (w : World) : string * World :=
  match read_images image_paths
          [VDict [("type", VStr "text"); ("text", VStr query)]] w with
  | (inl msg, w') => ("Error in Ollama image query: " +:+ msg, w')
  | (inr content, w') =>
      let messages :=
        [ ("system", VStr (system_prompt self)); ("user", VList content) ] in
      if String.eqb (model self) "" then
        ("Error: No model specified for Ollama agent", w')
      else
        match async_client_chat_multimodal (model self) messages w' with
        | (inl msg, w'') => ("Error in Ollama image query: " +:+ msg, w'')
        | (inr response, w'') => (response_content response, w'')
        end
  end.

End Images.

(** the call names no registered tool: its name is a string the registry
    does not hold, or no string at all *)
Definition names_no_tool {World} (self : OllamaAgent World)
    (call : PyDict.t value) : Prop :=
  match PyDict.get_default call "name" (VStr "") with
  | VStr s => PyDict.get (available_tools self) s = None
  | _ => True
  end.

(** the entries a search for [query] would collect from the listed
    directories if it never stopped, in the order of the walk, on a disk
    where the size of the file at [path] is [sizes path] *)
Definition all_matches (query : string) (sizes : string → Z)
    (entries : list (string * list string)) : list value :=
  flat_map
    (λ entry,
       map (λ file, file_result entry.1 file (sizes (path_join entry.1 file)))
         (filter (λ file, name_matches query file = true) entry.2))
    entries.

(** the [type] entry of a file result *)
Definition file_type (result : value) : string :=
  match result with
  | VDict d =>
      match PyDict.get d "type" with
      | Some (VStr t) => t
      | _ => ""
      end
  | _ => ""
  end.

(** [result] is the entry of a file of the walk whose name matches [query]
    and whose size could be read *)
Definition found_by `{FileSystem} (query : string) (result : value) : Prop :=
  ∃ root files file size,
    (root, files) ∈ walk ∧ file ∈ files
    ∧ name_matches query file = true
    ∧ getsize (path_join root file) = inr size
    ∧ result = file_result root file size.

(** ** A concrete runtime, registry and server for the examples *)

Module Examples.

(** The quotation mark, [chr(34)]. *)
Definition DQ : string := String "034"%char EmptyString.

Definition hex_digit (n : nat) : string :=
  String.substring n 1 "0123456789abcdef".

(** how [json.dumps] writes one character of a string
    ([ensure_ascii=True]) *)
Definition json_escape_char (c : ascii) : string :=
  let n := nat_of_ascii c in
  if Nat.eqb n 34 then "\" +:+ DQ
  else if Nat.eqb n 92 then "\\"
  else if Nat.eqb n 10 then "\n"
  else if Nat.eqb n 13 then "\r"
  else if Nat.eqb n 9 then "\t"
  else if Nat.eqb n 8 then "\b"
  else if Nat.eqb n 12 then "\f"
  else if Nat.leb 32 n && Nat.leb n 126 then String c EmptyString
  else "\u00" +:+ hex_digit (n / 16) +:+ hex_digit (n mod 16).

Fixpoint json_escape (s : string) : string :=
  match s with
  | EmptyString => EmptyString
  | String c s' => json_escape_char c +:+ json_escape s'
  end.

Definition json_string (s : string) : string := DQ +:+ json_escape s +:+ DQ.

(** [json.dumps(v, indent=2)] at the nesting depth whose indentation is
    [indent] *)
Fixpoint json_indent (indent : string) (v : value) : string :=
  let inner := indent +:+ "  " in
  match v with
  | VNone => "null"
  | VBool true => "true"
  | VBool false => "false"
  | VInt z => pretty z
  | VStr s => json_string s
  | VList [] => "[]"
  | VList l =>
      "[" +:+ LF +:+ inner
        +:+ String.concat ("," +:+ LF +:+ inner) (map (json_indent inner) l)
        +:+ LF +:+ indent +:+ "]"
  | VDict [] => "{}"
  | VDict d =>
      "{" +:+ LF +:+ inner
        +:+ String.concat ("," +:+ LF +:+ inner)
              (map (λ kv, json_string kv.1 +:+ ": "
                            +:+ json_indent inner kv.2) d)
        +:+ LF +:+ indent +:+ "}"
  end.

(** [type(v).__name__] *)
Definition type_name (v : value) : string :=
  match v with
  | VNone => "NoneType"
  | VBool _ => "bool"
  | VInt _ => "int"
  | VStr _ => "str"
  | VList _ => "list"
  | VDict _ => "dict"
  end.

(** CPython 3.12 on the values the examples use. [str] of a list or a
    dict is never taken by the agent (such a tool name fails the
    membership test first); the instance gives their JSON text. *)
Definition cpython : PythonRuntime := {|
  str_of_object v :=
    match v with
    | VNone => "None"
    | VBool true => "True"
    | VBool false => "False"
    | VInt z => pretty z
    | VStr s => s
    | VList _ | VDict _ => json_indent "" v
    end;
  runtime_msg e :=
    match e with
    | Unhashable v => "unhashable type: '" +:+ type_name v +:+ "'"
    | NoGetAttribute v =>
        "'" +:+ type_name v +:+ "' object has no attribute 'get'"
    end;
  json_dumps := json_indent ""
|}.

(** The world of the examples: the journal of what was done to it. *)
Definition journal : Type := list string.

(** a tool that succeeds *)
Definition read_file : callable journal :=
  λ parameters w,
    (Returns (VDict [("output", VStr "contents"); ("error", VNone)]),
     w ++ ["read_file"]).

(** a tool that raises after having touched the world *)
Definition write_file : callable journal :=
  λ parameters w, (Raises "disk full", w ++ ["write_file"]).

Definition path_schema : PyDict.t value :=
  [ ("type", VStr "object");
    ("properties", VDict [("path", VDict [("type", VStr "string")])]);
    ("required", VList [VStr "path"]) ].

Definition registry : PyDict.t (RegisteredTool journal) :=
  register_tool
    (register_tool [] "read_file" read_file "Read a file" path_schema)
    "write_file" write_file "Write a file" path_schema.

(** a server that answers every request with the same plain text *)
Definition answering : Backend journal := {|
  async_client_chat model messages w :=
    (inr (Response.mk None (Some (Some "pong"))), w ++ ["chat"]);
  SYSTEM_PROMPT := "You are a powerful agentic AI coding assistant."
|}.

(** a server that cannot be reached *)
Definition unreachable : Backend journal := {|
  async_client_chat model messages w := (inl "timed out", w);
  SYSTEM_PROMPT := "You are a powerful agentic AI coding assistant."
|}.

Definition agent (tools : PyDict.t (RegisteredTool journal))
    : OllamaAgent journal :=
  {| model := "llama3";
     original_host := None;
     host := "http://localhost:11434";
     conversation_history := [];
     available_tools := tools;
     system_prompt := "You are a powerful agentic AI coding assistant." |}.

(** a call as the server presents it *)
Definition call (name : string) (path : string) : PyDict.t value :=
  [ ("name", VStr name); ("parameters", VDict [("path", VStr path)]) ].

(** a server that asks for two tools, one of them unknown *)
Definition tool_calling : Backend journal := {|
  async_client_chat model messages w :=
    (inr (Response.mk (Some [call "read_file" "a"; call "grep" "b"])
            (Some (Some "working on it"))),
     w ++ ["chat"]);
  SYSTEM_PROMPT := "You are a powerful agentic AI coding assistant."
|}.

(** a small working directory; the size of [gone.py] cannot be read *)
Definition disk : FileSystem := {|
  walk := [ ("/work", ["README.md"; "setup.py"; "Makefile"]);
            ("/work/agent", ["base.py"; "gone.py"; "notes.TXT"; "archive.tar.gz"]) ];
  getsize path :=
    if String.eqb path "/work/agent/gone.py"
    then inl "[Errno 2] No such file or directory: '/work/agent/gone.py'"
    else inr (Z.of_nat (String.length path))
|}.

(** a disk on which every size can be read *)
Definition sound_disk (entries : list (string * list string)) : FileSystem := {|
  walk := entries;
  getsize path := inr (Z.of_nat (String.length path))
|}.

(** images: [missing.png] cannot be opened; the server sees a cat *)
Definition images : ImageBackend journal := {|
  read_image path w :=
    if String.eqb path "missing.png"
    then (inl "[Errno 2] No such file or directory: 'missing.png'",
          w ++ ["open " +:+ path])
    else (inr "aGk=", w ++ ["open " +:+ path]);
  async_client_chat_multimodal model messages w :=
    (inr (Response.mk None (Some (Some "a cat"))), w ++ ["chat"])
|}.

End Examples.

(** * Properties *)

(** ** Dictionaries *)

Section PyDictFacts.

Context {V : Type}.
Implicit Types (d : PyDict.t V) (k : string) (v : V).

Lemma contains_get d k :
  PyDict.contains d k = true ↔ is_Some (PyDict.get d k).
Proof.
  induction d as [|[k' v'] d IH]; simpl.
  - split; [done|]. by intros [? ?].
  - destruct (String.eqb k k'); [|done]. split; [by eexists|done].
Qed.

Lemma contains_keys d k : PyDict.contains d k = true ↔ k ∈ PyDict.keys d.
Proof.
  induction d as [|[k' v'] d IH]; simpl.
  - split; [done|]. by intros ?%elem_of_nil.
  - rewrite elem_of_cons. destruct (String.eqb_spec k k') as [->|Hne].
    + split; auto.
    + rewrite IH. split; [auto|]. by intros [?|?].
Qed.

Lemma get_set_eq d k v : PyDict.get (PyDict.set d k v) k = Some v.
Proof.
  induction d as [|[k' v'] d IH]; simpl.
  - by rewrite String.eqb_refl.
  - destruct (String.eqb k k') eqn:E; simpl.
    + by rewrite String.eqb_refl.
    + by rewrite E.
Qed.

Lemma get_set_ne d k k' v :
  k ≠ k' → PyDict.get (PyDict.set d k v) k' = PyDict.get d k'.
Proof.
  intros Hne. induction d as [|[k0 v0] d IH]; simpl.
  - destruct (String.eqb_spec k' k); [congruence|done].
  - destruct (String.eqb_spec k k0) as [->|Hk]; simpl.
    + destruct (String.eqb_spec k' k0); [congruence|done].
    + destruct (String.eqb k' k0); [done|apply IH].
Qed.

Lemma keys_set d k v :
  PyDict.keys (PyDict.set d k v)
  = if PyDict.contains d k then PyDict.keys d else PyDict.keys d ++ [k].
Proof.
  induction d as [|[k' v'] d IH]; simpl; [done|].
  destruct (String.eqb_spec k k') as [->|Hne]; simpl; [done|].
  rewrite IH. by destruct (PyDict.contains d k).
Qed.

Lemma wf_set d k v : PyDict.wf d → PyDict.wf (PyDict.set d k v).
Proof.
  unfold PyDict.wf. intros Hwf. rewrite keys_set.
  destruct (PyDict.contains d k) eqn:E; [done|].
  apply NoDup_app. split_and!; [done| |apply NoDup_singleton].
  intros x Hx ->%list_elem_of_singleton.
  apply contains_keys in Hx. congruence.
Qed.

Lemma count_absent d k : k ∉ PyDict.keys d → PyDict.count d k = 0.
Proof.
  unfold PyDict.count. induction d as [|[k' v'] d IH]; [done|].
  intros [Hne Hd]%not_elem_of_cons.
  rewrite filter_cons_False; [by apply IH|]. simpl. naive_solver.
Qed.

Lemma count_wf d k :
  PyDict.wf d → PyDict.count d k = if PyDict.contains d k then 1 else 0.
Proof.
  unfold PyDict.wf. induction d as [|[k' v'] d IH]; [done|].
  intros [Hk' Hd]%NoDup_cons. unfold PyDict.count in *.
  cbn [PyDict.contains].
  destruct (String.eqb_spec k k') as [->|Hne].
  - rewrite filter_cons_True; [|done]. cbn [length].
    fold (PyDict.count d k'). by rewrite count_absent.
  - rewrite filter_cons_False; [by apply IH|]. simpl. naive_solver.
Qed.

Lemma count_set d k v : PyDict.wf d → PyDict.count (PyDict.set d k v) k = 1.
Proof.
  intros Hwf. rewrite count_wf; [|by apply wf_set].
  replace (PyDict.contains (PyDict.set d k v) k) with true; [done|].
  symmetry. apply contains_get. rewrite get_set_eq. by eexists.
Qed.

End PyDictFacts.

(** ** The registry *)

Section RegistryFacts.

Context {World : Type}.
Implicit Types (tools : PyDict.t (RegisteredTool World)).

Lemma register_tool_wf tools name f description parameters :
  PyDict.wf tools →
  PyDict.wf (register_tool tools name f description parameters).
Proof. apply wf_set. Qed.

Lemma register_all_wf tools (calls : list (registration World)) :
  PyDict.wf tools → PyDict.wf (register_all tools calls).
Proof.
  revert tools. induction calls as [|r calls IH]; simpl; [done|].
  intros tools Hwf. apply IH, register_tool_wf, Hwf.
Qed.

Lemma register_all_app tools (l1 l2 : list (registration World)) :
  register_all tools (l1 ++ l2) = register_all (register_all tools l1) l2.
Proof. apply foldl_app. Qed.

(** C6. Registering a name a second time overwrites: whatever was
    registered before the first call and between the two calls, once the
    second [register_tool] for [name] has returned the registry holds
    exactly one entry under [name], and that entry carries the callable,
    the description and the parameters of the second call. *)
Theorem register_tool_last_write_wins
    (before between : list (registration World)) (name : string)
    (f1 f2 : callable World) (description1 description2 : string)
    (parameters1 parameters2 : PyDict.t value) :
  let first := register_tool (register_all [] before)
                 name f1 description1 parameters1 in
  let second := register_tool (register_all first between)
                  name f2 description2 parameters2 in
  PyDict.get second name
    = Some {| function := f2;
              schema := ToolSchema.mk name description2 parameters2 |}
  ∧ PyDict.count second name = 1.
Proof.
  intros first second. split.
  - apply get_set_eq.
  - apply count_set, register_all_wf, register_tool_wf, register_all_wf.
    apply NoDup_nil_2.
Qed.

End RegistryFacts.

(** ** Tool preparation and dispatch *)

Section DispatchFacts.

Context {World : Type} `{PythonRuntime} `{Backend World}.
Implicit Types (self : OllamaAgent World) (call : PyDict.t value)
  (calls : list (PyDict.t value)) (w : World).

Lemma prepare_tool_outcome (name : string) (tool_data : RegisteredTool World) :
  match prepare_tool name tool_data with
  | inl e => e = KeyError "properties"
             ∧ has_properties (name, tool_data) = false
  | inr _ => has_properties (name, tool_data) = true
  end.
Proof.
  unfold prepare_tool, has_properties; simpl.
  destruct (PyDict.get _ "properties") eqn:E.
  - apply contains_get. rewrite E. by eexists.
  - split; [done|]. apply not_true_is_false.
    intros [? ?]%contains_get. congruence.
Qed.

Lemma prepare_loop_outcome (items : PyDict.t (RegisteredTool World))
    (tools : list value) :
  match prepare_loop items tools with
  | inl e => e = KeyError "properties"
             ∧ forallb has_properties items = false
  | inr out => forallb has_properties items = true
               ∧ length out = length tools + length items
  end.
Proof.
  revert tools. induction items as [|[name tool_data] items IH]; intros tools.
  - simpl. split; [done|lia].
  - cbn [prepare_loop forallb].
    pose proof (prepare_tool_outcome name tool_data) as Ht.
    destruct (prepare_tool name tool_data) as [e|tool].
    + destruct Ht as [-> ->]. done.
    + rewrite Ht. specialize (IH (tools ++ [tool])).
      destruct (prepare_loop items (tools ++ [tool])) as [e|out]; [done|].
      destruct IH as [-> IH]. split; [done|].
      rewrite IH, length_app. simpl. lia.
Qed.

Lemma prepare_tools_outcome self :
  match _prepare_tools self with
  | inl e => e = KeyError "properties"
             ∧ forallb has_properties (available_tools self) = false
  | inr out => forallb has_properties (available_tools self) = true
               ∧ length out = length (available_tools self)
  end.
Proof.
  unfold _prepare_tools.
  pose proof (prepare_loop_outcome (available_tools self) []) as Hl.
  destruct (available_tools self) as [|item items]; [done|].
  exact Hl.
Qed.

Lemma forallb_has_properties_set (tools : PyDict.t (RegisteredTool World))
    (name : string) (tool : RegisteredTool World) :
  has_properties (name, tool) = false →
  forallb has_properties (PyDict.set tools name tool) = false.
Proof.
  intros Hp. induction tools as [|[k t] tools IH]; simpl.
  - unfold has_properties in *. simpl in *. by rewrite Hp.
  - destruct (String.eqb k name), (String.eqb name k); simpl;
      rewrite ?IH, ?andb_false_r; try done;
      unfold has_properties in *; simpl in *; by rewrite Hp.
Qed.

(** C10. [_prepare_tools] returns exactly when every registered schema
    has the key [properties]; otherwise it raises [KeyError('properties')],
    and so does every [chat], before the server or any tool is reached
    and with the agent and the world untouched. [register_tool] accepts
    a schema without the key, so such a registry can be built: adding a
    tool with empty [parameters] to any registry is enough. *)
Theorem prepare_tools_needs_properties self :
  match _prepare_tools self with
  | inl e =>
      e = KeyError "properties"
      ∧ forallb has_properties (available_tools self) = false
      ∧ ∀ message user_info w,
          chat self message user_info w = (inl e, self, w)
  | inr tools =>
      forallb has_properties (available_tools self) = true
      ∧ length tools = length (available_tools self)
  end
  ∧ ∀ name f description,
      _prepare_tools
        (with_tools self
           (register_tool (available_tools self) name f description []))
      = inl (KeyError "properties").
Proof.
  split.
  - pose proof (prepare_tools_outcome self) as Ho.
    destruct (_prepare_tools self) as [e|tools] eqn:E; [|done].
    destruct Ho as [-> Hf]. split_and!; [done..|].
    intros message user_info w. unfold chat. by rewrite E.
  - intros name f description.
    pose proof (prepare_tools_outcome
                  (with_tools self
                     (register_tool (available_tools self)
                        name f description []))) as Ho.
    destruct (_prepare_tools _) as [e|tools]; [by destruct Ho as [-> _]|].
    destruct Ho as [Ho _]. simpl in Ho. unfold register_tool in Ho.
    rewrite forallb_has_properties_set in Ho; done.
Qed.

(** *** The dispatch loop *)

Lemma execute_loop_acc self calls (acc : list ToolCallResult.t) w :
  execute_loop self calls acc w
  = (acc ++ (execute_loop self calls [] w).1,
     (execute_loop self calls [] w).2).
Proof.
  revert acc w. induction calls as [|call calls IH]; intros acc w; simpl.
  - by rewrite app_nil_r.
  - destruct (execute_call self call w) as [result w'].
    rewrite (IH (acc ++ [result])), (IH [result]). simpl.
    by rewrite <- app_assoc.
Qed.

Lemma execute_cons self call calls w :
  _execute_tool_calls self (call :: calls) w
  = ((execute_call self call w).1
       :: (_execute_tool_calls self calls (execute_call self call w).2).1,
     (_execute_tool_calls self calls (execute_call self call w).2).2).
Proof.
  unfold _execute_tool_calls. simpl.
  destruct (execute_call self call w) as [result w'].
  by rewrite execute_loop_acc.
Qed.

Lemma execute_app self (l1 l2 : list (PyDict.t value)) w :
  _execute_tool_calls self (l1 ++ l2) w
  = ((_execute_tool_calls self l1 w).1
       ++ (_execute_tool_calls self l2 (_execute_tool_calls self l1 w).2).1,
     (_execute_tool_calls self l2 (_execute_tool_calls self l1 w).2).2).
Proof.
  revert w. induction l1 as [|call l1 IH]; intros w.
  - simpl. by destruct (_execute_tool_calls self l2 w).
  - rewrite <- app_comm_cons, !execute_cons, IH. done.
Qed.

Lemma execute_length self calls w :
  length (_execute_tool_calls self calls w).1 = length calls.
Proof.
  revert w. induction calls as [|call calls IH]; intros w; [done|].
  rewrite execute_cons. simpl. by rewrite IH.
Qed.

(** what every result says about its call, on each of the three paths *)
Lemma execute_call_fields self call w :
  let result := (execute_call self call w).1 in
  ToolCallResult.parameters result
    = PyDict.get_default call "parameters" (VDict [])
  ∧ ToolCallResult.name result
      ∈ [ PyDict.get_default call "name" (VStr "");
          PyDict.get_default call "name" (VStr "unknown") ].
Proof.
  unfold execute_call, try_call.
  destruct (PyDict.get_default call "name" (VStr "")) eqn:En; simpl;
    try (split; [done|set_solver]).
  destruct (PyDict.get (available_tools self) s) as [tool|]; simpl;
    [|split; [done|set_solver]].
  destruct (function tool _ w) as [[[]|msg] w']; simpl;
    split; try done; set_solver.
Qed.

(** C4. Whatever the calls do, [_execute_tool_calls] returns one result
    per call, and the result at each position is the one of the call at
    that position: it carries that call's parameters and name and is what
    one round of the loop makes of that call. *)
Theorem execute_tool_calls_arity_and_order self calls w :
  let results := (_execute_tool_calls self calls w).1 in
  length results = length calls
  ∧ Forall2
      (λ call result,
         ToolCallResult.parameters result
           = PyDict.get_default call "parameters" (VDict [])
         ∧ ToolCallResult.name result
             ∈ [ PyDict.get_default call "name" (VStr "");
                 PyDict.get_default call "name" (VStr "unknown") ]
         ∧ ∃ w', result = (execute_call self call w').1)
      calls results.
Proof.
  split; [apply execute_length|].
  revert w. induction calls as [|call calls IH]; intros w.
  - constructor.
  - rewrite execute_cons. simpl. constructor; [|apply IH].
    pose proof (execute_call_fields self call w) as [Hp Hn].
    split_and!; [done..|by eexists].
Qed.

(** C1. A tool that raises is contained. Let the calls [before] have
    been run, and let the function registered for the next call raise an
    exception with message [msg]. Then the batch as a whole still
    returns: the results of [before], then a result for the failed call
    with empty output and the error ["Error executing tool: " + msg],
    then one result for every call in [after], each of them executed in
    the world the failed call left behind. *)
Theorem execute_tool_calls_isolates_failure self
    (before after : list (PyDict.t value)) call w0
    (name : string) (tool : RegisteredTool World) (msg : string) w1 :
  PyDict.get_default call "name" (VStr "") = VStr name →
  PyDict.get (available_tools self) name = Some tool →
  function tool (PyDict.get_default call "parameters" (VDict []))
    (_execute_tool_calls self before w0).2 = (Raises msg, w1) →
  _execute_tool_calls self (before ++ call :: after) w0
  = ((_execute_tool_calls self before w0).1
       ++ ToolCallResult.mk
            (PyDict.get_default call "name" (VStr "unknown"))
            (PyDict.get_default call "parameters" (VDict []))
            (VStr "") (VStr ("Error executing tool: " +:+ msg))
       :: (_execute_tool_calls self after w1).1,
     (_execute_tool_calls self after w1).2)
  ∧ length (_execute_tool_calls self after w1).1 = length after.
Proof.
  intros Hname Htool Hraise. split; [|apply execute_length].
  assert (execute_call self call (_execute_tool_calls self before w0).2
          = (ToolCallResult.mk
               (PyDict.get_default call "name" (VStr "unknown"))
               (PyDict.get_default call "parameters" (VDict []))
               (VStr "") (VStr ("Error executing tool: " +:+ msg)), w1))
    as Hcall.
  { unfold execute_call, try_call. by rewrite Hname, Htool, Hraise. }
  by rewrite execute_app, execute_cons, Hcall.
Qed.

(** C2. A call for a name that is not registered is answered with data.
    Let the calls [before] have been run and let the next call ask for
    [name], which the registry does not hold. Then the batch returns the
    results of [before], then a result with that name, empty output and
    the error ["Tool '" + name + "' not found"], then the results of the
    calls in [after], executed in the world as [before] left it. *)
Theorem execute_tool_calls_unknown_tool self
    (before after : list (PyDict.t value)) call w0 (name : string) :
  PyDict.get_default call "name" (VStr "") = VStr name →
  PyDict.get (available_tools self) name = None →
  let w1 := (_execute_tool_calls self before w0).2 in
  _execute_tool_calls self (before ++ call :: after) w0
  = ((_execute_tool_calls self before w0).1
       ++ ToolCallResult.mk (VStr name)
            (PyDict.get_default call "parameters" (VDict []))
            (VStr "") (VStr ("Tool '" +:+ name +:+ "' not found"))
       :: (_execute_tool_calls self after w1).1,
     (_execute_tool_calls self after w1).2)
  ∧ length (_execute_tool_calls self after w1).1 = length after.
Proof.
  intros Hname Htool w1. split; [|apply execute_length].
  assert (execute_call self call w1
          = (ToolCallResult.mk (VStr name)
               (PyDict.get_default call "parameters" (VDict []))
               (VStr "") (VStr ("Tool '" +:+ name +:+ "' not found")), w1))
    as Hcall.
  { unfold execute_call, try_call. by rewrite Hname, Htool. }
  subst w1. by rewrite execute_app, execute_cons, Hcall.
Qed.

End DispatchFacts.

(** ** Conversations *)

Section ChatFacts.

Context {World : Type} `{PythonRuntime} `{Backend World}.
Implicit Types (self : OllamaAgent World) (w : World)
  (inputs : list chat_input).

(** the messages sent to the server: the system turn, the history, the
    new user turn *)
Lemma extend_messages_app (messages history : list Message.t) :
  extend_messages messages history = messages ++ history.
Proof.
  revert messages. induction history as [|msg history IH]; intros messages.
  - by rewrite app_nil_r.
  - simpl. by rewrite IH, <- app_assoc.
Qed.

Lemma prepare_messages_shape self (message : string) :
  _prepare_messages self message
  = Message.mk "system" (system_prompt self)
      :: conversation_history self ++ [Message.mk "user" message].
Proof. unfold _prepare_messages. by rewrite extend_messages_app. Qed.

(** [chat] changes nothing of the agent but its history, and the history
    only by appending *)
Lemma chat_appends self (message : string) user_info w :
  ∃ turns,
    (chat self message user_info w).1.2
    = with_history self (conversation_history self ++ turns).
Proof.
  assert (self = with_history self (conversation_history self ++ []))
    as Hid by (rewrite app_nil_r; by destruct self).
  unfold chat.
  destruct (_prepare_tools self); [by exists []|].
  destruct (String.eqb (model self) ""); [by exists []|].
  destruct (async_client_chat _ _ w) as [[msg|response] w'];
    [by exists []|].
  eexists [_; _].
  destruct (has_tool_calls response);
    [destruct (_execute_tool_calls _ _ w')|]; simpl;
    unfold append_history, with_history; simpl; by rewrite <- app_assoc.
Qed.

Lemma chat_history_prefix self (message : string) user_info w :
  conversation_history self
    `prefix_of` conversation_history (chat self message user_info w).1.2.
Proof.
  destruct (chat_appends self message user_info w) as [turns ->].
  by exists turns.
Qed.

Lemma chats_history_prefix self inputs w :
  conversation_history self
    `prefix_of` conversation_history (chats self inputs w).1.
Proof.
  revert self w. induction inputs as [|[message user_info] inputs IH];
    intros self w; simpl; [done|].
  pose proof (chat_history_prefix self message user_info w) as Hp.
  destruct (chat self message user_info w) as [[r self'] w'].
  etrans; [exact Hp|apply IH].
Qed.

Lemma chats_app self (l1 l2 : list chat_input) w :
  chats self (l1 ++ l2) w
  = chats (chats self l1 w).1 l2 (chats self l1 w).2.
Proof.
  revert self w. induction l1 as [|[message user_info] l1 IH];
    intros self w; simpl; [done|].
  destruct (chat self message user_info w) as [[r self'] w']. apply IH.
Qed.

(** a plain success appends the user turn and the assistant turn *)
Lemma chat_plain_success self (input : chat_input) w :
  plain_success self input w = true →
  ∃ content,
    (chat self input.1 input.2 w).1.2
    = with_history self
        (conversation_history self
           ++ [ Message.mk "user" (format_user_message input.1 input.2);
                Message.mk "assistant" content ]).
Proof.
  unfold plain_success, chat.
  destruct (_prepare_tools self); [done|].
  destruct (String.eqb (model self) ""); [done|]. simpl.
  destruct (async_client_chat _ _ w) as [[msg|response] w']; [done|].
  intros ->%negb_true_iff. exists (response_content response).
  unfold append_history, with_history; simpl. by rewrite <- app_assoc.
Qed.

Lemma chats_roles self inputs w :
  all_plain_success self inputs w = true →
  map Message.role (conversation_history (chats self inputs w).1)
  = map Message.role (conversation_history self)
      ++ concat (replicate (length inputs) ["user"; "assistant"]).
Proof.
  revert self w. induction inputs as [|input inputs IH]; intros self w.
  - simpl. by rewrite app_nil_r.
  - cbn [all_plain_success chats]. intros [Hs Hrest]%andb_true_iff.
    destruct (chat_plain_success self input w Hs) as [content Hc].
    destruct input as [message user_info]. simpl in Hc, Hrest.
    destruct (chat self message user_info w) as [[r self'] w'].
    simpl in Hc. subst self'. rewrite (IH _ _ Hrest). simpl.
    rewrite map_app. simpl. by rewrite <- app_assoc.
Qed.

(** C3. If the call to the model server raises, with message [msg],
    [chat] returns the text ["Error communicating with Ollama: " + msg]
    instead of raising, and the agent is as it was: no turn of the failed
    exchange is in the history. That the server is called at all means
    that the tools could be prepared and that a model is set. *)
Theorem chat_backend_error_keeps_history self (message : string)
    user_info w (tools : list value) (msg : string) w' :
  _prepare_tools self = inr tools →
  model self ≠ "" →
  async_client_chat (model self)
    (_prepare_messages self (format_user_message message user_info)) w
    = (inl msg, w') →
  chat self message user_info w
    = (inr (Text ("Error communicating with Ollama: " +:+ msg)), self, w')
  ∧ conversation_history (chat self message user_info w).1.2
    = conversation_history self.
Proof.
  intros Htools Hmodel Hraise.
  assert (chat self message user_info w
          = (inr (Text ("Error communicating with Ollama: " +:+ msg)),
             self, w')) as ->; [|done].
  unfold chat. rewrite Htools.
  destruct (String.eqb_spec (model self) ""); [done|].
  by rewrite Hraise.
Qed.

(** C5. Start from an agent with an empty history, as the constructor
    leaves it, and make [N] calls of [chat], each of which reaches the
    server and gets an answer without tool calls. Then the history has
    exactly [2 * N] turns, their roles are user, assistant, user,
    assistant, ... beginning with user, and the history after any number
    of the calls is an initial segment of the final one: turns are only
    ever appended. *)
Theorem history_alternates self inputs w :
  conversation_history self = [] →
  all_plain_success self inputs w = true →
  let final := (chats self inputs w).1 in
  length (conversation_history final) = 2 * length inputs
  ∧ map Message.role (conversation_history final)
    = concat (replicate (length inputs) ["user"; "assistant"])
  ∧ ∀ k, conversation_history (chats self (take k inputs) w).1
           `prefix_of` conversation_history final.
Proof.
  intros Hfresh Hok final.
  assert (map Message.role (conversation_history final)
          = concat (replicate (length inputs) ["user"; "assistant"]))
    as Hroles.
  { subst final. by rewrite chats_roles, Hfresh. }
  split_and!; [|done|].
  - rewrite <- (length_map Message.role), Hroles.
    clear. induction (length inputs) as [|n IH]; simpl; lia.
  - intros k. subst final.
    rewrite <- (take_drop k inputs) at 2. rewrite chats_app.
    apply chats_history_prefix.
Qed.

End ChatFacts.

(** ** The permission prompt *)

Section PromptFacts.

Context `{PythonRuntime}.

Lemma says_yes_not_no (line : string) :
  says_yes line = true → says_no line = false.
Proof.
  unfold says_yes, says_no, in_pair.
  intros [->%String.eqb_eq| ->%String.eqb_eq]%orb_true_iff; reflexivity.
Qed.

Lemma prompt_loop_answers (invalid : list string) (line : string)
    (rest : list string) (console : list console_event) :
  forallb (λ l, negb (valid_answer l)) invalid = true →
  valid_answer line = true →
  prompt_loop (invalid ++ line :: rest) console
  = (inr (if says_yes line then GRANTED else DENIED), rest,
     console ++ reprompts (length invalid)
       ++ [Input "Allow this operation? (y/n): "]).
Proof.
  intros Hinvalid Hvalid. revert console.
  induction invalid as [|l invalid IH]; intros console.
  - cbn [app prompt_loop length reprompts replicate concat].
    unfold valid_answer, says_yes, says_no in *.
    destruct (in_pair (lower (strip line)) "y" "yes"); [done|].
    simpl in Hvalid. by rewrite Hvalid.
  - cbn [forallb] in Hinvalid.
    apply andb_true_iff in Hinvalid as [Hl Hinvalid].
    apply negb_true_iff, orb_false_iff in Hl as [Hy Hn].
    unfold says_yes, says_no in Hy, Hn.
    cbn [app prompt_loop]. rewrite Hy, Hn, (IH Hinvalid).
    cbn [length reprompts replicate concat].
    by rewrite <- !app_assoc.
Qed.

Lemma prompt_loop_never_asks (stdin : list string)
    (console : list console_event) :
  (prompt_loop stdin console).1.1 ≠ inr ASK.
Proof.
  revert console. induction stdin as [|line stdin IH]; intros console.
  - done.
  - cbn [prompt_loop].
    destruct (in_pair (lower (strip line)) "y" "yes"); [done|].
    destruct (in_pair (lower (strip line)) "n" "no"); [done|]. apply IH.
Qed.

(** C7. Let the lines on standard input be some lines that are no valid
    answer, then a line that is one, then anything. The default callback
    returns [GRANTED] exactly when that first valid line, stripped and in
    lower case, is [y] or [yes], and [DENIED] exactly when it is [n] or
    [no]; it has read the lines up to and including that one; it has
    prompted once for each line read and printed the reminder once for
    each line turned down, however many there were. On no input at all
    does it return [ASK]. *)
Theorem permission_callback_first_valid_answer
    (permission_request : PermissionRequest)
    (invalid : list string) (line : string) (rest : list string) :
  forallb (λ l, negb (valid_answer l)) invalid = true →
  valid_answer line = true →
  let result :=
    _permission_request_callback permission_request
      (invalid ++ line :: rest) in
  (result.1.1 = inr GRANTED ↔ says_yes line = true)
  ∧ (result.1.1 = inr DENIED ↔ says_no line = true)
  ∧ result.1.2 = rest
  ∧ result.2 = banner permission_request ++ reprompts (length invalid)
                 ++ [Input "Allow this operation? (y/n): "]
  ∧ ∀ stdin,
      (_permission_request_callback permission_request stdin).1.1 ≠ inr ASK.
Proof.
  intros Hinvalid Hvalid result. subst result.
  unfold _permission_request_callback.
  rewrite (prompt_loop_answers _ _ _ _ Hinvalid Hvalid). simpl.
  split_and!; [| |done|done|intros stdin; apply prompt_loop_never_asks].
  - destruct (says_yes line); split; done.
  - destruct (says_yes line) eqn:Hy.
    + rewrite (says_yes_not_no _ Hy). split; done.
    + unfold valid_answer in Hvalid. rewrite Hy in Hvalid.
      simpl in Hvalid. rewrite Hvalid. done.
Qed.

End PromptFacts.

(** ** Message formatting *)

Section FormatFacts.

Context `{PythonRuntime}.

#[local] Arguments String.append !_ _ / : simpl nomatch.

Lemma append_assoc (a b c : string) : (a +:+ b) +:+ c = a +:+ b +:+ c.
Proof. induction a as [|x a IH]; cbn; [done|by f_equal]. Qed.

Lemma substring_whole (b c : string) :
  String.substring 0 (String.length b) (b +:+ c) = b.
Proof. induction b as [|x b IH]; cbn; [by destruct c|by f_equal]. Qed.

Lemma substring_inside (a b c : string) :
  String.substring (String.length a) (String.length b) (a +:+ b +:+ c) = b.
Proof. induction a as [|x a IH]; cbn; [apply substring_whole|done]. Qed.

(** a text that occurs is found *)
Lemma index_finds (a q c : string) :
  q ≠ EmptyString → is_Some (String.index 0 q (a +:+ q +:+ c)).
Proof.
  intros Hq. destruct (String.index 0 q (a +:+ q +:+ c)) eqn:E; [by eexists|].
  exfalso.
  apply (String.index_correct3 0 (String.length a)) in E; [|done|lia].
  apply E, substring_inside.
Qed.

Lemma index_skip (q rest : string) (b : ascii) (n : nat) :
  String.prefix q (String b rest) = false →
  String.index 0 q rest = Some n →
  String.index 0 q (String b rest) = Some (S n).
Proof. intros Hp Hn. cbn [String.index]. by rewrite Hp, Hn. Qed.

(** a needle without line feed that starts [m] followed by a line feed
    starts [m] *)
Lemma startswith_before_line (needle m rest : string) :
  has_char "010" needle = false →
  startswith (m +:+ LF +:+ rest) needle = startswith m needle.
Proof.
  revert m. induction needle as [|a needle IH]; intros m Hn.
  - by destruct m.
  - cbn [has_char] in Hn. apply orb_false_iff in Hn as [Ha Hn].
    destruct m as [|b m]; cbn.
    + by rewrite Ha.
    + by rewrite IH.
Qed.

Lemma occurs_before_line (needle m rest : string) :
  has_char "010" needle = false →
  occurs needle (LF +:+ rest) = false →
  occurs needle (m +:+ LF +:+ rest) = occurs needle m.
Proof.
  intros Hn Hrest. induction m as [|b m IH].
  - cbn [String.append]. rewrite Hrest. by destruct needle.
  - change (String b m +:+ LF +:+ rest) with (String b (m +:+ LF +:+ rest)).
    cbn [occurs]. rewrite IH.
    change (String b (m +:+ LF +:+ rest)) with (String b m +:+ LF +:+ rest).
    by rewrite startswith_before_line.
Qed.

Lemma format_with_info (message : string) (item : string * value)
    (items : PyDict.t value) :
  format_user_message message (Some (item :: items))
  = tagged "user_info" (json_dumps (VDict (item :: items)))
      +:+ LF +:+ LF +:+ tagged "user_query" message.
Proof.
  unfold format_user_message, tagged, LF. cbn [truthy of_optional_dict].
  cbn [String.append]. rewrite append_assoc. reflexivity.
Qed.

(** C8, as the code has it. When [user_info] is a dictionary with at least
    one entry, the formatted message is the [user_info] block holding its
    JSON text, an empty line, and the [user_query] block holding the
    message: the [user_info] tag opens the text and the [user_query] tag
    comes strictly later. When [user_info] is [None] or an empty
    dictionary, the formatted message is the [user_query] block alone: no
    [user_info] tag precedes the query, and the text [<user_info>] occurs
    in it only if it occurs in the message itself. *)
Theorem format_user_message_order (message : string)
    (user_info : option (PyDict.t value)) :
  let s := format_user_message message user_info in
  match user_info with
  | Some (item :: items) =>
      s = tagged "user_info" (json_dumps (VDict (item :: items)))
            +:+ LF +:+ LF +:+ tagged "user_query" message
      ∧ info_before_query s = true
  | Some [] | None =>
      s = tagged "user_query" message
      ∧ info_before_query s = false
      ∧ occurs "<user_info>" s = occurs "<user_info>" message
  end.
Proof.
  assert (format_user_message message None = tagged "user_query" message
          ∧ info_before_query (format_user_message message None) = false
          ∧ occurs "<user_info>" (format_user_message message None)
            = occurs "<user_info>" message) as Hplain.
  { split_and!; [done| |].
    - unfold info_before_query, format_user_message. cbn [truthy].
      destruct (String.index 0 "<user_info>" _); reflexivity.
    - unfold format_user_message. cbn [truthy].
      change ("<user_query>" +:+ LF +:+ message +:+ LF +:+ "</user_query>")
        with ("<user_query>" +:+ LF +:+ (message +:+ LF +:+ "</user_query>")).
      etrans; [|apply (occurs_before_line _ message "</user_query>");
                 reflexivity].
      reflexivity. }
  destruct user_info as [[|item items]|]; [exact Hplain| |exact Hplain].
  split; [apply format_with_info|]. cbn zeta.
  unfold info_before_query.
  assert (String.index 0 "<user_info>"
            (format_user_message message (Some (item :: items))) = Some 0)
    as -> by reflexivity.
  destruct (index_finds
              ("user_info>" +:+ LF +:+ json_dumps (VDict (item :: items))
                 +:+ LF +:+ "</user_info>" +:+ LF +:+ LF)
              "<user_query>" (LF +:+ message +:+ LF +:+ "</user_query>"))
    as [n Hn]; [done|].
  assert (format_user_message message (Some (item :: items))
          = String "<"
              (("user_info>" +:+ LF +:+ json_dumps (VDict (item :: items))
                  +:+ LF +:+ "</user_info>" +:+ LF +:+ LF)
                 +:+ "<user_query>" +:+ LF +:+ message +:+ LF
                 +:+ "</user_query>")) as Hs.
  { unfold format_user_message, LF. cbn [truthy of_optional_dict].
    cbn [String.append]. rewrite append_assoc. reflexivity. }
  rewrite Hs. rewrite (index_skip _ _ _ n); [done|reflexivity|exact Hn].
Qed.

End FormatFacts.

(** ** The host override *)

Section HostFacts.

Context {World : Type} `{Backend World}.

(** an object that carries [original_host] was built from an environment
    with that value, and the constructor left its own host in place *)
Lemma init_records_host (OLLAMA_AVAILABLE : bool) (super_init : option exn)
    (listing : option string) (model : string) (requested : option string)
    (env : environ) :
  match __init__ OLLAMA_AVAILABLE super_init listing model requested env with
  | (_, Some self, env') =>
      original_host self = env !! "OLLAMA_HOST"
      ∧ env' = <["OLLAMA_HOST" := host self]> env
  | (raised, None, env') => is_Some raised ∧ env' = env
  end.
Proof.
  unfold __init__.
  destruct OLLAMA_AVAILABLE; simpl; [|by split; [eexists|]].
  destruct super_init; [by split; [eexists|]|].
  by destruct (_check_ollama_server _ listing).
Qed.

(** C9. Whichever way the constructor ends (with an agent, or raising
    because the package is missing, because the base constructor fails, or
    because the server does not answer), running [__del__] on the object it
    leaves behind gives back the environment exactly as it was before the
    constructor ran. And whatever has happened to the environment in
    between, [__del__] on an object that has set [OLLAMA_HOST] puts that
    variable back to its value from before the constructor (removing it if
    it was not set), and touches no other variable; on an object that never
    set it, [__del__] changes nothing. *)
Theorem del_restores_host (OLLAMA_AVAILABLE : bool)
    (super_init : option exn) (listing : option string) (model : string)
    (host : option string) (env : environ) :
  let constructed :=
    __init__ OLLAMA_AVAILABLE super_init listing model host env in
  let self := constructed.1.2 in
  __del__ self constructed.2 = env
  ∧ ∀ later : environ,
      delete "OLLAMA_HOST" (__del__ self later) = delete "OLLAMA_HOST" later
      ∧ match self with
        | Some _ => __del__ self later !! "OLLAMA_HOST" = env !! "OLLAMA_HOST"
        | None => constructed.2 = env ∧ __del__ self later = later
        end.
Proof.
  intros constructed self. subst self constructed.
  pose proof (init_records_host OLLAMA_AVAILABLE super_init listing
                model host env) as Hi.
  destruct (__init__ _ _ _ _ _ _) as [[raised [self|]] env']; simpl.
  - destruct Hi as [Ho ->]. unfold __del__. rewrite Ho.
    destruct (env !! "OLLAMA_HOST") as [h|] eqn:E.
    + split; [by rewrite insert_insert_eq, insert_id|].
      intros later. by rewrite delete_insert_eq, lookup_insert_eq.
    + split; [by rewrite delete_insert_id|].
      intros later. by rewrite delete_delete_eq, lookup_delete_eq.
  - destruct Hi as [_ ->]. done.
Qed.

End HostFacts.

(** ** The properties on concrete runs *)

(** Three calls, the second of which raises: three results in the order
    of the calls, the third call still executed. *)
Lemma execute_tool_calls_isolates_failure_witness :
  _execute_tool_calls (H := Examples.cpython)
    (Examples.agent Examples.registry)
    [ Examples.call "read_file" "a"; Examples.call "write_file" "b";
      Examples.call "read_file" "c" ] []
  = ([ ToolCallResult.mk (VStr "read_file") (VDict [("path", VStr "a")])
         (VStr "contents") VNone;
       ToolCallResult.mk (VStr "write_file") (VDict [("path", VStr "b")])
         (VStr "") (VStr "Error executing tool: disk full");
       ToolCallResult.mk (VStr "read_file") (VDict [("path", VStr "c")])
         (VStr "contents") VNone ],
     ["read_file"; "write_file"; "read_file"]).
Proof.
  pose proof (execute_tool_calls_isolates_failure (H := Examples.cpython)
                (Examples.agent Examples.registry)
                [Examples.call "read_file" "a"]
                [Examples.call "read_file" "c"]
                (Examples.call "write_file" "b") []
                "write_file"
                {| function := Examples.write_file;
                   schema := ToolSchema.mk "write_file" "Write a file"
                               Examples.path_schema |}
                "disk full" ["read_file"; "write_file"]
                eq_refl eq_refl eq_refl) as [Hbatch _].
  exact Hbatch.
Defined.

(** A call for a tool that was never registered, between two good calls. *)
Lemma execute_tool_calls_unknown_tool_witness :
  _execute_tool_calls (H := Examples.cpython)
    (Examples.agent Examples.registry)
    [ Examples.call "read_file" "a"; Examples.call "grep" "b";
      Examples.call "read_file" "c" ] []
  = ([ ToolCallResult.mk (VStr "read_file") (VDict [("path", VStr "a")])
         (VStr "contents") VNone;
       ToolCallResult.mk (VStr "grep") (VDict [("path", VStr "b")])
         (VStr "") (VStr "Tool 'grep' not found");
       ToolCallResult.mk (VStr "read_file") (VDict [("path", VStr "c")])
         (VStr "contents") VNone ],
     ["read_file"; "read_file"]).
Proof.
  pose proof (execute_tool_calls_unknown_tool (H := Examples.cpython)
                (Examples.agent Examples.registry)
                [Examples.call "read_file" "a"]
                [Examples.call "read_file" "c"]
                (Examples.call "grep" "b") [] "grep"
                eq_refl eq_refl) as [Hbatch _].
  exact Hbatch.
Defined.

(** The server times out: the caller gets a text, the history stays
    empty. *)
Lemma chat_backend_error_keeps_history_witness :
  chat (H := Examples.cpython) (H0 := Examples.unreachable)
    (Examples.agent Examples.registry) "hello" None []
  = (inr (Text "Error communicating with Ollama: timed out"),
     Examples.agent Examples.registry, [])
  ∧ conversation_history
      (chat (H := Examples.cpython) (H0 := Examples.unreachable)
         (Examples.agent Examples.registry) "hello" None []).1.2
    = [].
Proof.
  exact (chat_backend_error_keeps_history
           (H := Examples.cpython) (H0 := Examples.unreachable)
           (Examples.agent Examples.registry) "hello" None []
           _ "timed out" []
           eq_refl ltac:(discriminate) eq_refl).
Defined.

(** Two plain exchanges: four turns, alternating. *)
Lemma history_alternates_witness :
  let final :=
    (chats (H := Examples.cpython) (H0 := Examples.answering)
       (Examples.agent Examples.registry)
       [("hello", Some [("cursor", VInt 5)]); ("and again", None)] []).1 in
  length (conversation_history final) = 4
  ∧ map Message.role (conversation_history final)
    = ["user"; "assistant"; "user"; "assistant"].
Proof.
  pose proof (history_alternates
                (H := Examples.cpython) (H0 := Examples.answering)
                (Examples.agent Examples.registry)
                [("hello", Some [("cursor", VInt 5)]); ("and again", None)]
                [] eq_refl eq_refl) as (Hlen & Hroles & _).
  split; [exact Hlen|exact Hroles].
Defined.

(** Two lines that are no answer, then a yes in capitals with blanks
    around it; the line after it is left unread. *)
Lemma permission_callback_first_valid_answer_witness :
  let result :=
    _permission_request_callback (H := Examples.cpython)
      {| operation := "delete_file"; details := [("path", VStr "a.txt")] |}
      ["maybe"; ""; "  YES "; "n"] in
  result.1.1 = inr GRANTED ∧ result.1.2 = ["n"].
Proof.
  pose proof (permission_callback_first_valid_answer
                (H := Examples.cpython)
                {| operation := "delete_file";
                   details := [("path", VStr "a.txt")] |}
                ["maybe"; ""] "  YES " ["n"] eq_refl eq_refl)
    as (Hgranted & _ & Hrest & _).
  split; [apply Hgranted; reflexivity|exact Hrest].
Defined.

(** An empty dictionary is present and yet gets no [user_info] block: the
    rule "whenever [user_info] is given, its block comes before the query"
    does not hold of the code. *)
Lemma format_user_message_empty_info :
  ¬ (∀ (runtime : PythonRuntime) (message : string)
       (user_info : PyDict.t value),
       info_before_query
         (format_user_message (H := runtime) message (Some user_info))
       = true).
Proof.
  intros Hclaim. specialize (Hclaim Examples.cpython "hello" []).
  vm_compute in Hclaim. discriminate Hclaim.
Qed.

(** The example of the specification: a cursor position and a greeting. *)
Example format_user_message_cursor :
  format_user_message (H := Examples.cpython) "hello" (Some [("cursor", VInt 5)])
  = "<user_info>" +:+ LF +:+ "{" +:+ LF +:+ "  " +:+ Examples.DQ +:+ "cursor"
      +:+ Examples.DQ +:+ ": 5" +:+ LF +:+ "}" +:+ LF +:+ "</user_info>"
      +:+ LF +:+ LF +:+ "<user_query>" +:+ LF +:+ "hello" +:+ LF
      +:+ "</user_query>".
Proof. reflexivity. Qed.

(** Registering [x] twice leaves the second schema. *)
Example register_twice :
  PyDict.keys
    (register_tool
       (register_tool [] "x" Examples.read_file "first" [])
       "x" Examples.write_file "second" Examples.path_schema)
  = ["x"].
Proof. reflexivity. Qed.

(** A schema without [properties] is accepted at registration and stops
    every later [chat] before the server is asked. *)
Example chat_without_properties :
  chat (H := Examples.cpython) (H0 := Examples.answering)
    (Examples.agent
       (register_tool Examples.registry "bad" Examples.read_file "Bad"
          [("type", VStr "object")]))
    "hello" None []
  = (inl (KeyError "properties"),
     Examples.agent
       (register_tool Examples.registry "bad" Examples.read_file "Bad"
          [("type", VStr "object")]),
     []).
Proof. reflexivity. Qed.

(** Two agents built one after the other on an environment without
    [OLLAMA_HOST], and discarded in the reverse order. *)
Example host_restored_in_turn :
  let first := __init__ (H := Examples.answering) true None None
                 "ollama-llama3" (Some "http://gpu:11434") ∅ in
  let second := __init__ (H := Examples.answering) true None
                  (Some "connection refused") "llama3" None first.2 in
  second.2 !! "OLLAMA_HOST" = Some "http://gpu:11434"
  ∧ __del__ first.1.2 (__del__ second.1.2 second.2) = ∅.
Proof. split; reflexivity. Qed.

(** * Further properties of the code *)

(** ** More on the registry *)

Section RegistryMore.

Context {World : Type}.
Implicit Types (tools : PyDict.t (RegisteredTool World)).

(** X1. Registering a tool changes nothing under any other name: the
    lookup of every name different from the one registered gives what it
    gave before. *)
Theorem register_tool_keeps_other_names tools (name other : string)
    (f : callable World) (description : string)
    (parameters : PyDict.t value) :
  name ≠ other →
  PyDict.get (register_tool tools name f description parameters) other
  = PyDict.get tools other.
Proof. intros Hne. by apply get_set_ne. Qed.

(** X2. Registration keeps the order of the registry: a name that is
    already registered stays at its position and the number of tools does
    not change; a new name goes to the end. *)
Theorem register_tool_keeps_order tools (name : string)
    (f : callable World) (description : string)
    (parameters : PyDict.t value) :
  let tools' := register_tool tools name f description parameters in
  if PyDict.contains tools name
  then PyDict.keys tools' = PyDict.keys tools
       ∧ length tools' = length tools
  else PyDict.keys tools' = PyDict.keys tools ++ [name]
       ∧ length tools' = S (length tools).
Proof.
  intros tools'. subst tools'. unfold register_tool.
  assert (∀ d : PyDict.t (RegisteredTool World),
            length d = length (PyDict.keys d)) as Hlen
    by (intros d; unfold PyDict.keys; by rewrite length_map).
  rewrite !Hlen, keys_set.
  destruct (PyDict.contains tools name); [done|].
  split; [done|]. rewrite length_app. simpl. lia.
Qed.

Lemma schema_names_set tools (name : string) (tool : RegisteredTool World) :
  Forall (λ item, ToolSchema.name (schema item.2) = item.1) tools →
  ToolSchema.name (schema tool) = name →
  Forall (λ item, ToolSchema.name (schema item.2) = item.1)
    (PyDict.set tools name tool).
Proof.
  intros Htools Htool. induction Htools as [|[k t] tools Hk Htools IH]; simpl.
  - by repeat constructor.
  - destruct (String.eqb name k); constructor; done.
Qed.

(** X3. In a registry filled by [register_tool] alone, however often and
    in whatever order, no name occurs twice and the [name] inside every
    stored schema is the name the tool is registered under. *)
Theorem registry_names_consistent (calls : list (registration World)) :
  let tools := register_all [] calls in
  NoDup (PyDict.keys tools)
  ∧ Forall (λ item, ToolSchema.name (schema item.2) = item.1) tools.
Proof.
  intros tools. subst tools. split.
  - apply register_all_wf, NoDup_nil_2.
  - assert (∀ tools0 : PyDict.t (RegisteredTool World),
              Forall (λ item, ToolSchema.name (schema item.2) = item.1) tools0 →
              Forall (λ item, ToolSchema.name (schema item.2) = item.1)
                (register_all tools0 calls)) as Hgen.
    { induction calls as [|r calls IH]; intros tools0 H0; simpl; [done|].
      apply IH. unfold register_tool. by apply schema_names_set. }
    apply Hgen. constructor.
Qed.

End RegistryMore.

(** ** More on tool preparation and dispatch *)

Section DispatchMore.

Context {World : Type} `{PythonRuntime} `{Backend World}.
Implicit Types (self : OllamaAgent World) (call : PyDict.t value)
  (calls : list (PyDict.t value)) (w : World).

Lemma prepare_loop_in_order (items : PyDict.t (RegisteredTool World))
    (acc out : list value) :
  prepare_loop items acc = inr out →
  ∃ prepared,
    out = acc ++ prepared
    ∧ Forall2 (λ item tool, prepare_tool item.1 item.2 = inr tool)
        items prepared.
Proof.
  revert acc. induction items as [|[name tool_data] items IH]; intros acc.
  - simpl. intros [= <-]. exists []. by rewrite app_nil_r.
  - cbn [prepare_loop].
    destruct (prepare_tool name tool_data) as [e|tool] eqn:Et; [done|].
    intros (prepared & -> & Hall)%IH. exists (tool :: prepared).
    split; [by rewrite <- app_assoc|]. by constructor.
Qed.

(** the [name] entry of a prepared tool *)
Lemma prepare_tool_name (name : string) (tool_data : RegisteredTool World)
    (tool : value) :
  prepare_tool name tool_data = inr tool →
  ∃ d, tool = VDict d ∧ PyDict.get d "name" = Some (VStr name).
Proof.
  unfold prepare_tool. destruct (PyDict.get _ "properties"); [|done].
  intros [= <-]. by eexists.
Qed.

(** X4. When [_prepare_tools] returns, its list has one entry for each
    registered tool, in the order of the registry; each entry is the
    schema prepared from that tool, and its [name] is the name the tool is
    registered under. *)
Theorem prepare_tools_in_registry_order self (tools : list value) :
  _prepare_tools self = inr tools →
  Forall2 (λ item tool,
             prepare_tool item.1 item.2 = inr tool
             ∧ ∃ d, tool = VDict d ∧ PyDict.get d "name" = Some (VStr item.1))
    (available_tools self) tools.
Proof.
  unfold _prepare_tools. intros Hp.
  assert (prepare_loop (available_tools self) [] = inr tools) as Hl.
  { destruct (available_tools self); [by injection Hp as <-|done]. }
  apply prepare_loop_in_order in Hl as (prepared & -> & Hall). simpl.
  eapply Forall2_impl; [exact Hall|].
  intros [name tool_data] tool Ht. split; [done|].
  by apply (prepare_tool_name name tool_data).
Qed.

(** X5. Batches compose: running the calls [l1 ++ l2] gives the results
    of [l1] followed by the results of [l2] run in the world that [l1]
    left; nothing else carries over from one call to the next. *)
Theorem execute_tool_calls_composes self (l1 l2 : list (PyDict.t value)) w :
  let first := _execute_tool_calls self l1 w in
  let second := _execute_tool_calls self l2 first.2 in
  _execute_tool_calls self (l1 ++ l2) w = (first.1 ++ second.1, second.2).
Proof. intros first second. apply execute_app. Qed.

Lemma execute_call_no_tool self call w :
  names_no_tool self call →
  (execute_call self call w).2 = w
  ∧ ToolCallResult.output (execute_call self call w).1 = VStr ""
  ∧ ∃ msg, ToolCallResult.error (execute_call self call w).1 = VStr msg.
Proof.
  unfold names_no_tool, execute_call, try_call.
  destruct (PyDict.get_default call "name" (VStr "")) eqn:En;
    try (intros _; simpl; split_and!; [done..|by eexists]).
  intros ->. simpl. split_and!; [done..|by eexists].
Qed.

(** X6. A batch in which no call names a registered tool runs no tool:
    the world is left as it was, and every result has an empty output and
    an error text. *)
Theorem execute_tool_calls_without_tools self calls w :
  Forall (names_no_tool self) calls →
  (_execute_tool_calls self calls w).2 = w
  ∧ Forall (λ result,
              ToolCallResult.output result = VStr ""
              ∧ ∃ msg, ToolCallResult.error result = VStr msg)
      (_execute_tool_calls self calls w).1.
Proof.
  intros Hall. induction Hall as [|call calls Hcall Hall IH].
  - by split.
  - rewrite execute_cons.
    destruct (execute_call_no_tool self call w Hcall) as (Hw & Ho & He).
    simpl. rewrite Hw. destruct IH as [IHw IHr].
    split; [done|]. by constructor.
Qed.

End DispatchMore.

(** ** More on conversations *)

Section ChatMore.

Context {World : Type} `{PythonRuntime} `{Backend World}.
Implicit Types (self : OllamaAgent World) (w : World)
  (inputs : list chat_input).


(** X8. When the server's answer carries tool calls, [chat] returns a
    structured response: the assistant text, one entry per tool call in
    the order of the calls, each with [thinking] [None]. The tools run
    after both turns were appended, and their results are not put into the
    history, which grows by the two turns only. *)
Theorem chat_with_tool_calls self (message : string) user_info w
    (tools : list value) (response : Response.t) w'
    (raw : list (PyDict.t value)) :
  _prepare_tools self = inr tools →
  model self ≠ "" →
  async_client_chat (model self)
    (_prepare_messages self (format_user_message message user_info)) w
    = (inr response, w') →
  Response.tool_calls response = Some raw →
  raw ≠ [] →
  let self' :=
    with_history self
      (conversation_history self
         ++ [ Message.mk "user" (format_user_message message user_info);
              Message.mk "assistant" (response_content response) ]) in
  let executed := _execute_tool_calls self' raw w' in
  chat self message user_info w
  = (inr (Structured
            (AgentResponse.mk (response_content response)
               (map agent_tool_call executed.1) VNone)),
     self', executed.2)
  ∧ length (map agent_tool_call executed.1) = length raw
  ∧ Forall (λ entry, AgentToolCall.thinking entry = VNone)
      (map agent_tool_call executed.1).
Proof.
  intros Htools Hmodel Hanswer Hraw Hne self' executed.
  split_and!.
  - unfold chat. rewrite Htools.
    destruct (String.eqb_spec (model self) ""); [done|].
    rewrite Hanswer. unfold has_tool_calls. rewrite Hraw.
    destruct raw as [|call raw]; [done|]. simpl.
    assert (append_history
              (append_history self
                 (Message.mk "user" (format_user_message message user_info)))
              (Message.mk "assistant" (response_content response))
            = self') as ->.
    { subst self'. unfold append_history, with_history; simpl.
      by rewrite <- app_assoc. }
    subst executed. by destruct (_execute_tool_calls self' (call :: raw) w').
  - rewrite length_map. apply execute_length.
  - apply Forall_forall. intros entry (r & -> & _)%list_elem_of_fmap. done.
Qed.

(** X9. The messages sent to the server keep the roles in order: for an
    agent that started with an empty history and has had [N] plain
    exchanges, the next request is the system turn, then user and
    assistant [N] times, then the new user turn. *)
Theorem prepared_messages_alternate self inputs w (message : string) :
  conversation_history self = [] →
  all_plain_success self inputs w = true →
  map Message.role (_prepare_messages (chats self inputs w).1 message)
  = "system" :: concat (replicate (length inputs) ["user"; "assistant"])
      ++ ["user"].
Proof.
  intros Hfresh Hok. rewrite prepare_messages_shape. cbn [map].
  rewrite map_app, (chats_roles _ _ _ Hok), Hfresh. done.
Qed.

End ChatMore.

(** ** More on the permission prompt and on formatting *)

Section PromptMore.

Context `{PythonRuntime}.

#[local] Arguments String.append !_ _ / : simpl nomatch.

Lemma prompt_loop_exhausted (stdin : list string)
    (console : list console_event) :
  forallb (λ l, negb (valid_answer l)) stdin = true →
  prompt_loop stdin console
  = (inl EOFError, [],
     console ++ reprompts (length stdin)
       ++ [Input "Allow this operation? (y/n): "]).
Proof.
  revert console. induction stdin as [|l stdin IH]; intros console Hall.
  - done.
  - cbn [forallb] in Hall. apply andb_true_iff in Hall as [Hl Hall].
    apply negb_true_iff, orb_false_iff in Hl as [Hy Hn].
    unfold says_yes, says_no in Hy, Hn.
    cbn [prompt_loop]. rewrite Hy, Hn, (IH _ Hall).
    cbn [length reprompts replicate concat]. by rewrite <- !app_assoc.
Qed.

(** X10. If standard input ends before any valid answer was given, the
    default callback returns no decision: after a prompt for every line
    and one more, the [EOFError] of [input] leaves the callback, with all
    lines read. *)
Theorem permission_callback_end_of_input
    (permission_request : PermissionRequest) (stdin : list string) :
  forallb (λ l, negb (valid_answer l)) stdin = true →
  _permission_request_callback permission_request stdin
  = (inl EOFError, [],
     banner permission_request ++ reprompts (length stdin)
       ++ [Input "Allow this operation? (y/n): "]).
Proof. intros Hall. by apply prompt_loop_exhausted. Qed.

Lemma append_cancel_l (a x y : string) : a +:+ x = a +:+ y → x = y.
Proof. induction a as [|c a IH]; cbn; [done|]. intros [= E]. auto. Qed.

Lemma length_append (x y : string) :
  String.length (x +:+ y) = String.length x + String.length y.
Proof. induction x as [|c x IH]; cbn; [done|by rewrite IH]. Qed.

Lemma append_cancel_r (x y b : string) : x +:+ b = y +:+ b → x = y.
Proof.
  revert y. induction x as [|c x IH]; intros [|d y]; cbn; intros E.
  - done.
  - apply (f_equal String.length) in E. cbn in E.
    rewrite length_append in E. lia.
  - apply (f_equal String.length) in E. cbn in E.
    rewrite length_append in E. lia.
  - injection E as -> E. f_equal. by apply IH.
Qed.

(** X11. The message can be read back from the formatted text: with the
    same [user_info], two messages that are formatted to the same text
    are the same message. *)
Theorem format_user_message_injective (message1 message2 : string)
    (user_info : option (PyDict.t value)) :
  format_user_message message1 user_info
  = format_user_message message2 user_info →
  message1 = message2.
Proof.
  unfold format_user_message. destruct (truthy user_info); intros E.
  - repeat apply append_cancel_l in E. by apply append_cancel_r in E.
  - repeat apply append_cancel_l in E. by apply append_cancel_r in E.
Qed.

End PromptMore.

(** ** More on construction and the host override *)

Section HostMore.

Context {World : Type} `{PythonRuntime} `{Backend World}.

#[local] Arguments String.append !_ _ / : simpl nomatch.




Lemma init_then_del (OLLAMA_AVAILABLE : bool) (super_init : option exn)
    (listing : option string) (model : string) (requested : option string)
    (env : environ) :
  __del__
    (__init__ OLLAMA_AVAILABLE super_init listing model requested env).1.2
    (__init__ OLLAMA_AVAILABLE super_init listing model requested env).2
  = env.
Proof.
  pose proof (init_records_host OLLAMA_AVAILABLE super_init listing
                model requested env) as Hi.
  destruct (__init__ _ _ _ _ _ _) as [[raised [self|]] env']; simpl.
  - destruct Hi as [Ho ->]. rewrite Ho.
    destruct (env !! "OLLAMA_HOST") as [h|] eqn:E.
    + by rewrite insert_insert_eq, insert_id.
    + by rewrite delete_insert_id.
  - by destruct Hi as [_ ->].
Qed.

(** X14. Agents nest: if a second agent is built while the first is
    alive and the second is discarded before the first, the environment is
    afterwards exactly what it was before the first was built, however
    either construction ended. *)
Theorem del_in_reverse_order_restores
    (available1 available2 : bool) (super1 super2 : option exn)
    (listing1 listing2 : option string) (model1 model2 : string)
    (requested1 requested2 : option string) (env : environ) :
  let first := __init__ available1 super1 listing1 model1 requested1 env in
  let second :=
    __init__ available2 super2 listing2 model2 requested2 first.2 in
  __del__ first.1.2 (__del__ second.1.2 second.2) = env.
Proof.
  intros first second. subst first second.
  by rewrite !init_then_del.
Qed.




End HostMore.

(** ** Image queries and the model listing *)

Section ImagesMore.

Context {World : Type} `{ImageBackend World}.

Lemma read_images_app (l1 l2 : list string) (content : list value)
    (w : World) :
  read_images (l1 ++ l2) content w
  = match read_images l1 content w with
    | (inl msg, w') => (inl msg, w')
    | (inr content', w') => read_images l2 content' w'
    end.
Proof.
  revert content w. induction l1 as [|path l1 IH]; intros content w.
  - done.
  - cbn [app read_images].
    destruct (read_image path w) as [[msg|image_data] w']; [done|apply IH].
Qed.

(** X17. If one of the images cannot be read, [query_image] returns the
    text ["Error in Ollama image query: "] followed by the error, whatever
    the model is: the images before it have been read, those after it are
    not touched, and the server is not asked. *)
Theorem query_image_unreadable (self : OllamaAgent World)
    (before after : list string) (path query : string) (w w1 w2 : World)
    (content : list value) (msg : string) :
  read_images before [VDict [("type", VStr "text"); ("text", VStr query)]] w
    = (inr content, w1) →
  read_image path w1 = (inl msg, w2) →
  query_image self (before ++ path :: after) query w
  = ("Error in Ollama image query: " +:+ msg, w2).
Proof.
  intros Hbefore Hpath. unfold query_image.
  rewrite read_images_app, Hbefore. cbn [read_images]. by rewrite Hpath.
Qed.

End ImagesMore.

Section ListingFacts.

Lemma has_char_before_first (c : ascii) (s : string) :
  has_char c (before_first c s) = false.
Proof.
  induction s as [|a s IH]; [done|]. cbn [before_first].
  destruct (Ascii.eqb a c) eqn:E; [done|]. cbn [has_char]. by rewrite E.
Qed.

Lemma collect_models_clean (listed : list (option string))
    (acc : list string) :
  Forall (λ n, n ≠ "" ∧ has_char ":" n = false) acc →
  Forall (λ n, n ≠ "" ∧ has_char ":" n = false) (collect_models listed acc).
Proof.
  revert acc. induction listed as [|model_info listed IH]; intros acc Hacc.
  - done.
  - cbn [collect_models]. destruct model_info as [[|a n]|]; try by apply IH.
    destruct (has_char ":" (String a n)) eqn:Ec.
    + destruct (before_first ":" (String a n)) as [|b n'] eqn:Eb;
        [by apply IH|].
      apply IH, Forall_app. split; [done|]. constructor; [|done].
      split; [done|]. rewrite <- Eb. apply has_char_before_first.
    + apply IH, Forall_app. split; [done|]. by repeat constructor.
Qed.

(** X18. Every name that [_check_ollama_server] collects from the
    server's listing is non-empty and free of colons: entries without a
    name are skipped, and a tag is cut off at the first colon. *)
Theorem collected_models_have_no_tag (listed : list (option string)) :
  Forall (λ n, n ≠ "" ∧ has_char ":" n = false) (collect_models listed []).
Proof. apply collect_models_clean. constructor. Qed.

(** X19. A model asked for with a tag is always taken to be missing: when
    the agent's model name contains a colon, the test that guards the
    warning "not found in available models" succeeds for every listing,
    also one that lists that very model. *)
Theorem tagged_model_is_never_found (model : string)
    (listed : list (option string)) :
  has_char ":" model = true →
  model_not_found model listed = true.
Proof.
  intros Htag. unfold model_not_found, in_list. apply negb_true_iff.
  apply not_true_is_false. intros (n & Hin & ->%String.eqb_eq)%existsb_exists.
  pose proof (collect_models_clean listed [] ltac:(constructor)) as Hclean.
  rewrite Forall_forall in Hclean.
  apply list_elem_of_In, Hclean in Hin as [_ Hn]. congruence.
Qed.

End ListingFacts.

(** ** The file search tool *)

Section FileSearchFacts.

Lemma search_files_take (query root : string) (sizes : string → Z)
    (entries : list (string * list string)) (files : list string)
    (acc : list value) :
  length acc < 10 →
  search_files (H := {| walk := entries; getsize p := inr (sizes p) |})
    query root files acc
  = inr (take 10 (acc ++ all_matches query sizes [(root, files)])).
Proof.
  unfold all_matches. cbn [flat_map fst snd]. rewrite app_nil_r.
  revert acc. induction files as [|file files IH]; intros acc Hacc.
  - cbn. rewrite app_nil_r, take_ge; [done|lia].
  - cbn [search_files getsize].
    destruct (name_matches query file) eqn:Em.
    + rewrite filter_cons_True by done. cbn [map].
      set (r := file_result root file (sizes (path_join root file))).
      set (rest := map _ (filter _ files)).
      replace (acc ++ r :: rest) with ((acc ++ [r]) ++ rest)
        by (by rewrite <- app_assoc).
      assert (length (acc ++ [r]) = S (length acc)) as Hlen
        by (rewrite length_app; simpl; lia).
      destruct (Nat.leb 10 (length (acc ++ [r]))) eqn:E.
      * apply Nat.leb_le in E.
        rewrite take_app_le, take_ge; [done|lia|lia].
      * apply Nat.leb_gt in E. apply IH. lia.
    + rewrite filter_cons_False by (rewrite Em; done). by apply IH.
Qed.

Lemma all_matches_cons (query : string) (sizes : string → Z)
    (entry : string * list string) (entries : list (string * list string)) :
  all_matches query sizes (entry :: entries)
  = all_matches query sizes [entry] ++ all_matches query sizes entries.
Proof. unfold all_matches. cbn [flat_map]. by rewrite app_nil_r. Qed.

Lemma search_walk_take (query : string) (sizes : string → Z)
    (entries0 entries : list (string * list string)) (acc : list value) :
  length acc < 10 →
  search_walk (H := {| walk := entries0; getsize p := inr (sizes p) |})
    query entries acc
  = inr (take 10 (acc ++ all_matches query sizes entries)).
Proof.
  revert acc. induction entries as [|[root files] entries IH]; intros acc Hacc.
  - cbn. rewrite app_nil_r, take_ge; [done|lia].
  - cbn [search_walk]. rewrite search_files_take by done.
    rewrite (all_matches_cons _ _ (root, files) entries), (app_assoc acc).
    set (found := acc ++ all_matches query sizes [(root, files)]).
    destruct (Nat.leb 10 (length (take 10 found))) eqn:E.
    + apply Nat.leb_le in E. rewrite length_take in E.
      rewrite take_app_le; [done|lia].
    + apply Nat.leb_gt in E. rewrite length_take in E.
      rewrite (take_ge found) by lia. apply IH. lia.
Qed.

(** X20. On a disk where every size can be read, [file_search] returns
    the first ten of the files whose name contains the query without
    regard to case, in the order of the walk (all of them when there are
    fewer), and [total_matches] is the number returned, never more than
    ten, and not the number of files that match. *)
Theorem file_search_first_ten (query : string) (sizes : string → Z)
    (entries : list (string * list string)) :
  let found := take 10 (all_matches query sizes entries) in
  file_search (H := {| walk := entries; getsize p := inr (sizes p) |}) query
  = VDict [ ("query", VStr query);
            ("results", VList found);
            ("total_matches", VInt (Z.of_nat (length found))) ]
  ∧ length found ≤ 10.
Proof.
  intros found. subst found. unfold file_search. cbn [walk].
  rewrite search_walk_take by (simpl; lia). cbn [app].
  split; [done|]. rewrite length_take. lia.
Qed.

Section AnyDisk.

Context `{FileSystem}.

Lemma search_files_app (query root : string) (l1 l2 : list string)
    (acc : list value) :
  length acc < 10 →
  search_files query root (l1 ++ l2) acc
  = match search_files query root l1 acc with
    | inl msg => inl msg
    | inr found =>
        if Nat.leb 10 (length found) then inr found
        else search_files query root l2 found
    end.
Proof.
  revert acc. induction l1 as [|file l1 IH]; intros acc Hacc.
  - cbn [app search_files].
    destruct (Nat.leb 10 (length acc)) eqn:E; [|done].
    apply Nat.leb_le in E. lia.
  - cbn [app search_files]. destruct (name_matches query file); [|by apply IH].
    destruct (getsize (path_join root file)) as [msg|size]; [done|].
    destruct (Nat.leb 10 (length (acc ++ [file_result root file size])))
      eqn:E; [by rewrite E|].
    apply IH. by apply Nat.leb_gt in E.
Qed.

Lemma search_walk_app (query : string)
    (l1 l2 : list (string * list string)) (acc : list value) :
  length acc < 10 →
  search_walk query (l1 ++ l2) acc
  = match search_walk query l1 acc with
    | inl msg => inl msg
    | inr found =>
        if Nat.leb 10 (length found) then inr found
        else search_walk query l2 found
    end.
Proof.
  revert acc. induction l1 as [|[root files] l1 IH]; intros acc Hacc.
  - cbn [app search_walk].
    destruct (Nat.leb 10 (length acc)) eqn:E; [|done].
    apply Nat.leb_le in E. lia.
  - cbn [app search_walk].
    destruct (search_files query root files acc) as [msg|found]; [done|].
    destruct (Nat.leb 10 (length found)) eqn:E; [by rewrite E|].
    apply IH. by apply Nat.leb_gt in E.
Qed.

(** X21. One unreadable size spoils the search: if the walk reaches a
    file whose name matches while fewer than ten results have been
    collected, and the size of that file cannot be read, then
    [file_search] returns the error alone; the results collected before
    it are not returned. *)
Theorem file_search_unreadable_size (query root file msg : string)
    (before after : list (string * list string))
    (files1 files2 : list string) (found found1 : list value) :
  walk = before ++ (root, files1 ++ file :: files2) :: after →
  search_walk query before [] = inr found →
  length found < 10 →
  search_files query root files1 found = inr found1 →
  length found1 < 10 →
  name_matches query file = true →
  getsize (path_join root file) = inl msg →
  file_search query = VDict [("error", VStr msg)].
Proof.
  intros Hwalk Hbefore Hfound Hfiles1 Hfound1 Hmatch Hsize.
  unfold file_search. rewrite Hwalk, search_walk_app by (simpl; lia).
  rewrite Hbefore.
  destruct (Nat.leb 10 (length found)) eqn:E;
    [apply Nat.leb_le in E; lia|].
  cbn [search_walk]. rewrite search_files_app, Hfiles1 by done.
  destruct (Nat.leb 10 (length found1)) eqn:E1;
    [apply Nat.leb_le in E1; lia|].
  cbn [search_files]. by rewrite Hmatch, Hsize.
Qed.

Lemma search_files_sound (query root : string) (files0 files : list string)
    (acc out : list value) :
  (root, files0) ∈ walk →
  files ⊆ files0 →
  length acc < 10 →
  Forall (found_by query) acc →
  search_files query root files acc = inr out →
  length out ≤ 10 ∧ Forall (found_by query) out.
Proof.
  intros Hroot. revert acc. induction files as [|file files IH];
    intros acc Hsub Hacc Hall.
  - cbn. intros [= <-]. split; [lia|done].
  - cbn [search_files].
    assert (files ⊆ files0) as Hsub'
      by (intros x Hx; apply Hsub; by right).
    destruct (name_matches query file) eqn:Em; [|by apply IH].
    destruct (getsize (path_join root file)) as [msg|size] eqn:Es; [done|].
    assert (Forall (found_by query) (acc ++ [file_result root file size]))
      as Hall'.
    { apply Forall_app. split; [done|]. constructor; [|done].
      exists root, files0, file, size.
      split_and!; [done|apply Hsub; by left|done..]. }
    assert (length (acc ++ [file_result root file size]) = S (length acc))
      as Hlen by (rewrite length_app; simpl; lia).
    destruct (Nat.leb 10 (length (acc ++ [file_result root file size])))
      eqn:E.
    + intros [= <-]. split; [lia|done].
    + apply Nat.leb_gt in E. by apply IH.
Qed.

Lemma search_walk_sound (query : string)
    (entries : list (string * list string)) (acc out : list value) :
  entries ⊆ walk →
  length acc < 10 →
  Forall (found_by query) acc →
  search_walk query entries acc = inr out →
  length out ≤ 10 ∧ Forall (found_by query) out.
Proof.
  revert acc. induction entries as [|[root files] entries IH];
    intros acc Hsub Hacc Hall.
  - cbn. intros [= <-]. split; [lia|done].
  - cbn [search_walk].
    destruct (search_files query root files acc) as [msg|found] eqn:Ef;
      [done|].
    apply (search_files_sound _ _ files) in Ef as [Hlen Hfound];
      [|apply Hsub; by left|done..].
    destruct (Nat.leb 10 (length found)) eqn:E.
    + by intros [= <-].
    + apply Nat.leb_gt in E.
      apply IH; [intros x Hx; apply Hsub; by right|done..].
Qed.

(** X22. On any disk, [file_search] answers either with an error alone
    or with at most ten results, counted by [total_matches], each of which
    is the entry of a file met on the walk whose name contains the query
    without regard to case and whose size was read. *)
Theorem file_search_sound (query : string) :
  (∃ msg, file_search query = VDict [("error", VStr msg)])
  ∨ ∃ results,
      file_search query
      = VDict [ ("query", VStr query);
                ("results", VList results);
                ("total_matches", VInt (Z.of_nat (length results))) ]
      ∧ length results ≤ 10
      ∧ Forall (found_by query) results.
Proof.
  unfold file_search.
  destruct (search_walk query walk []) as [msg|results] eqn:E.
  - left. by eexists.
  - right. exists results. split; [done|].
    apply (search_walk_sound query walk []); [done|simpl; lia|done|done].
Qed.

Lemma has_char_after_last (c : ascii) (s : string) :
  has_char c (after_last c s) = false.
Proof.
  induction s as [|a s IH]; [done|]. cbn [after_last].
  destruct (has_char c s) eqn:Es; [done|].
  destruct (Ascii.eqb a c) eqn:Ea; [done|]. cbn [has_char]. by rewrite Ea, Es.
Qed.

Lemma lower_char_dot (c : ascii) :
  Ascii.eqb (lower_char c) "." = Ascii.eqb c ".".
Proof. destruct c as [[] [] [] [] [] [] [] []]; reflexivity. Qed.

Lemma lower_char_idempotent (c : ascii) :
  lower_char (lower_char c) = lower_char c.
Proof. destruct c as [[] [] [] [] [] [] [] []]; reflexivity. Qed.

Lemma has_char_dot_lower (s : string) :
  has_char "." (lower s) = has_char "." s.
Proof.
  induction s as [|a s IH]; [done|]. cbn. by rewrite lower_char_dot, IH.
Qed.

Lemma lower_idempotent (s : string) : lower (lower s) = lower s.
Proof.
  induction s as [|a s IH]; [done|]. cbn.
  by rewrite lower_char_idempotent, IH.
Qed.

(** X23. The [type] of a file result is in lower case and never contains
    a dot: it is what follows the last dot of the name, so [tar.gz] gives
    [gz] and a name that ends in a dot gives the empty type. *)
Theorem file_type_is_last_extension (root file : string) (size : Z) :
  let t := file_type (file_result root file size) in
  has_char "." t = false ∧ lower t = t.
Proof.
  cbn. destruct (has_char "." file); [|done].
  split; [|apply lower_idempotent].
  rewrite has_char_dot_lower. apply has_char_after_last.
Qed.

End AnyDisk.

End FileSearchFacts.

(** ** The file search tool behind the dispatch loop *)

Section SearchDispatch.

Context {World : Type} `{PythonRuntime} `{FileSystem}.


End SearchDispatch.

(** ** The further properties on concrete runs *)

Lemma register_tool_keeps_other_names_witness :
  PyDict.get
    (register_tool Examples.registry "grep" Examples.read_file "Search"
       Examples.path_schema) "write_file"
  = PyDict.get Examples.registry "write_file".
Proof.
  exact (register_tool_keeps_other_names Examples.registry "grep"
           "write_file" Examples.read_file "Search" Examples.path_schema
           ltac:(discriminate)).
Defined.

Lemma prepare_tools_in_registry_order_witness :
  ∃ tools,
    _prepare_tools (Examples.agent Examples.registry) = inr tools
    ∧ Forall2 (λ item tool,
                 prepare_tool item.1 item.2 = inr tool
                 ∧ ∃ d, tool = VDict d
                        ∧ PyDict.get d "name" = Some (VStr item.1))
        Examples.registry tools.
Proof.
  eexists. split; [reflexivity|].
  exact (prepare_tools_in_registry_order
           (Examples.agent Examples.registry) _ eq_refl).
Defined.

Lemma execute_tool_calls_without_tools_witness :
  (_execute_tool_calls (H := Examples.cpython)
     (Examples.agent Examples.registry)
     [Examples.call "grep" "a"; [("name", VList [])]; []]
     ["untouched"]).2
  = ["untouched"].
Proof.
  refine (proj1 (execute_tool_calls_without_tools (H := Examples.cpython)
                   (Examples.agent Examples.registry)
                   [Examples.call "grep" "a"; [("name", VList [])]; []]
                   ["untouched"] _)).
  repeat constructor.
Defined.

Lemma chat_with_tool_calls_witness :
  ∃ entries self' w',
    chat (H := Examples.cpython) (H0 := Examples.tool_calling)
      (Examples.agent Examples.registry) "read a" None []
    = (inr (Structured
              (AgentResponse.mk "working on it" entries VNone)), self', w')
    ∧ length entries = 2
    ∧ length (conversation_history self') = 2
    ∧ w' = ["chat"; "read_file"].
Proof.
  pose proof (chat_with_tool_calls
                (H := Examples.cpython) (H0 := Examples.tool_calling)
                (Examples.agent Examples.registry) "read a" None []
                _ _ _ _ eq_refl ltac:(discriminate) eq_refl eq_refl
                ltac:(discriminate)) as (Hchat & Hlen & _).
  do 3 eexists. split; [exact Hchat|]. split; [exact Hlen|].
  split; reflexivity.
Defined.

Lemma prepared_messages_alternate_witness :
  map Message.role
    (_prepare_messages
       (chats (H := Examples.cpython) (H0 := Examples.answering)
          (Examples.agent Examples.registry)
          [("hello", None); ("more", None)] []).1
       "third")
  = ["system"; "user"; "assistant"; "user"; "assistant"; "user"].
Proof.
  exact (prepared_messages_alternate
           (H := Examples.cpython) (H0 := Examples.answering)
           (Examples.agent Examples.registry)
           [("hello", None); ("more", None)] [] "third" eq_refl eq_refl).
Defined.

Lemma permission_callback_end_of_input_witness :
  (_permission_request_callback (H := Examples.cpython)
     {| operation := "delete_file"; details := [] |}
     ["maybe"; "yess"; "y e s"]).1
  = (inl EOFError, []).
Proof.
  exact (f_equal fst
           (permission_callback_end_of_input (H := Examples.cpython)
              {| operation := "delete_file"; details := [] |}
              ["maybe"; "yess"; "y e s"] eq_refl)).
Defined.

Lemma format_user_message_injective_witness :
  "hello" = "hello".
Proof.
  exact (format_user_message_injective (H := Examples.cpython)
           "hello" "hello" (Some [("cursor", VInt 5)]) eq_refl).
Defined.

Lemma query_image_unreadable_witness :
  query_image (H := Examples.images) (Examples.agent Examples.registry)
    ["cat.png"; "missing.png"; "dog.png"] "what is this?" []
  = ("Error in Ollama image query: [Errno 2] No such file or directory: 'missing.png'",
     ["open cat.png"; "open missing.png"]).
Proof.
  exact (query_image_unreadable (H := Examples.images)
           (Examples.agent Examples.registry)
           ["cat.png"] ["dog.png"] "missing.png" "what is this?"
           [] _ _ _ _ eq_refl eq_refl).
Defined.

Lemma tagged_model_is_never_found_witness :
  model_not_found "llama3:8b" [Some "llama3:8b"; Some "mistral:latest"]
  = true.
Proof.
  exact (tagged_model_is_never_found "llama3:8b"
           [Some "llama3:8b"; Some "mistral:latest"] eq_refl).
Defined.

Lemma file_search_unreadable_size_witness :
  file_search (H := Examples.disk) "PY"
  = VDict [("error",
            VStr "[Errno 2] No such file or directory: '/work/agent/gone.py'")].
Proof.
  exact (file_search_unreadable_size (H := Examples.disk)
           "PY" "/work/agent" "gone.py" _
           [("/work", ["README.md"; "setup.py"; "Makefile"])] []
           ["base.py"] ["notes.TXT"; "archive.tar.gz"] _ _
           eq_refl eq_refl ltac:(simpl; lia) eq_refl ltac:(simpl; lia)
           eq_refl eq_refl).
Defined.

